(** * Splash animation ([kok/splash_animation.py]): a shallow embedding

    The module draws a rotating 3D letter T for three seconds.  Its pure
    part (geometry, rotation, perspective projection, alpha envelope and
    depth gradient) is embedded as functions over the real numbers: a Python
    [float] is read as the real number it denotes, arithmetic is exact, and
    [int(...)] is truncation toward zero.  Module [Binary64] repeats the
    opacity, the gradient and the screen coordinates with IEEE 754 binary64
    arithmetic: at the whole milliseconds of the animation and at the whole
    depths of the gradient the two readings agree up to one unit of the
    channel, and up to a width of 2^53 the centre of the screen is the same.
    Operations that raise in Python (division by zero, list
    indexing out of range, failing library calls) return in an error monad.
    The effectful part ([_can_show_splash], [show_splash]) threads a trace
    of external calls and consults an environment that decides the outcome
    of every external call; the frame loop runs for a bounded number of
    iterations, and a run that has not left the loop by then is
    [Unfinished]. *)

From Stdlib Require Import Reals Lra Lia ZArith List String Bool.
From Stdlib Require PrimFloat FloatOps SpecFloat Uint63.

Set Warnings "-inexact-float".
Import ListNotations.

Open Scope R_scope.

(** ** Python numerics *)

Module Py.

(** [int(x)] on a float: truncation toward zero. *)
Definition int (x : R) : Z :=
  if Rle_dec 0 x then Int_part x else (- Int_part (- x))%Z.

(** [max(0, min(1, x))]. *)
Definition min (a b : R) : R := if Rlt_dec b a then b else a.
Definition max (a b : R) : R := if Rlt_dec a b then b else a.

(** [sum(xs)] of a list of floats. *)
Definition sum (xs : list R) : R := fold_left Rplus xs 0.

(** Exceptions, by the classes the handlers of the module tell apart.
    [KeyboardInterrupt] derives from [BaseException] only; all the others
    derive from [Exception]. *)
Inductive exn : Set :=
| ImportError
| ValueError
| IndexError
| ZeroDivisionError
| RuntimeError
| KeyboardInterrupt.

Definition exn_eqb (a b : exn) : bool :=
  match a, b with
  | ImportError, ImportError
  | ValueError, ValueError
  | IndexError, IndexError
  | ZeroDivisionError, ZeroDivisionError
  | RuntimeError, RuntimeError
  | KeyboardInterrupt, KeyboardInterrupt => true
  | _, _ => false
  end.

(** [isinstance(e, Exception)]. *)
Definition is_Exception (e : exn) : bool :=
  match e with KeyboardInterrupt => false | _ => true end.

(** The value of an expression: a result or a raised exception. *)
Inductive result (A : Type) : Type :=
| Ok (a : A)
| Raise (e : exn).
Arguments Ok {A} a.
Arguments Raise {A} e.

(** [xs[i]] on a list: a negative index counts from the end, and an index
    outside [-len, len) raises [IndexError]. *)
Definition getitem {A : Type} (xs : list A) (i : Z) : result A :=
  let n := Z.of_nat (List.length xs) in
  let j := if (i <? 0)%Z then (i + n)%Z else i in
  if ((j <? 0) || (n <=? j))%Z then Raise IndexError
  else match nth_error xs (Z.to_nat j) with
       | Some a => Ok a
       | None => Raise IndexError
       end.

End Py.

(** ** Geometry *)

Definition vertex : Type := R * R * R.

(** [_create_3d_letter_t(size)], lines 52-89. *)
Definition _create_3d_letter_t (size : R) : list vertex :=
  let thickness := size * 0.2 in
  let top_height := size * 0.8 in
  let bottom_bar_width := size * 1.2 in
  let center_offset := (bottom_bar_width / 2 - thickness) / 2 in
  [ (* top bar, front face *)
    (- bottom_bar_width / 2, top_height, - thickness / 2);
    (bottom_bar_width / 2, top_height, - thickness / 2);
    (bottom_bar_width / 2, top_height - thickness, - thickness / 2);
    (- bottom_bar_width / 2, top_height - thickness, - thickness / 2);
    (* top bar, back face *)
    (- bottom_bar_width / 2, top_height, thickness / 2);
    (bottom_bar_width / 2, top_height, thickness / 2);
    (bottom_bar_width / 2, top_height - thickness, thickness / 2);
    (- bottom_bar_width / 2, top_height - thickness, thickness / 2);
    (* stem, front face *)
    (- thickness / 2, top_height - thickness, - thickness / 2);
    (thickness / 2, top_height - thickness, - thickness / 2);
    (thickness / 2, - top_height, - thickness / 2);
    (- thickness / 2, - top_height, - thickness / 2);
    (* stem, back face *)
    (- thickness / 2, top_height - thickness, thickness / 2);
    (thickness / 2, top_height - thickness, thickness / 2);
    (thickness / 2, - top_height, thickness / 2);
    (- thickness / 2, - top_height, thickness / 2) ].

(** The face table of [show_splash], lines 216-235. *)
Definition face : Type := list Z.

Definition faces : list face :=
  [ [0; 1; 2; 3];
    [4; 5; 6; 7];
    [0; 1; 5; 4];
    [1; 2; 6; 5];
    [2; 3; 7; 6];
    [3; 0; 4; 7];
    [8; 9; 10; 11];
    [12; 13; 14; 15];
    [8; 9; 13; 12];
    [9; 10; 14; 13];
    [10; 11; 15; 14];
    [11; 8; 12; 15] ]%Z.

(** ** Transform and projection *)

(** [_rotate_vertex(vertex, angle_y)], lines 92-101, with the cosine and
    the sine of the real numbers. *)
Definition _rotate_vertex (v : vertex) (angle_y : R) : vertex :=
  let '(x, y, z) := v in
  let cos_a := cos angle_y in
  let sin_a := sin angle_y in
  let new_x := x * cos_a - z * sin_a in
  let new_z := x * sin_a + z * cos_a in
  (new_x, y, new_z).

Definition projected : Type := Z * Z * R.

(** [_project_3d_to_2d(vertex, screen_width, screen_height, distance)],
    lines 104-113.  The float division raises [ZeroDivisionError] on a zero
    divisor.  The coordinates are finite real numbers: [int()] never meets
    an infinity or a NaN here. *)
Definition _project_3d_to_2d (v : vertex) (screen_width screen_height : Z)
    (distance : R) : Py.result projected :=
  let '(x, y, z) := v in
  if Req_dec_T (distance + z) 0 then Py.Raise Py.ZeroDivisionError
  else
    let scale := distance / (distance + z) in
    let screen_x := Py.int (IZR screen_width / 2 + x * scale) in
    let screen_y := Py.int (IZR screen_height / 2 - y * scale) in
    Py.Ok (screen_x, screen_y, z).

(** Default value of the [distance] parameter. *)
Definition default_distance : R := 500.

(** ** Shading *)

(** Opacity of a frame, lines 194-202: the value the loop binds to [alpha]. *)
Definition alpha (progress : R) : Z :=
  if Rlt_dec progress 0.2 then
    Py.int (255 * (progress / 0.2))
  else if Rgt_dec progress 0.8 then
    let fade_progress := (progress - 0.8) / 0.2 in
    Py.int (255 * (1.0 - fade_progress))
  else 255%Z.

(** ** The shading and the screen coordinates on binary64 floats

    Lines 188-202, 250-265 and 109-111 with the arithmetic of IEEE 754
    binary64, the floats of Python: it serves to check how far rounding
    moves the values the real-number reading gives at the points of
    interest. *)

Module Binary64.

Import PrimFloat FloatOps SpecFloat.

(** [int(x)]: truncation toward zero; infinities and NaN raise. *)
Definition int (x : float) : option Z :=
  match Prim2SF x with
  | S754_zero _ => Some 0%Z
  | S754_finite s m e =>
      let mag :=
        if (0 <=? e)%Z then (Zpos m * 2 ^ e)%Z else (Zpos m / 2 ^ (- e))%Z in
      Some (if s then (- mag)%Z else mag)
  | _ => None
  end.

(** Lines 194-202. *)
Definition alpha (progress : float) : option Z :=
  if (progress <? 0.2)%float then
    int (255 * (progress / 0.2))%float
  else if (0.8 <? progress)%float then
    let fade_progress := ((progress - 0.8) / 0.2)%float in
    int (255 * (1.0 - fade_progress))%float
  else Some 255%Z.

(** Line 188: [progress = elapsed / TOTAL_DURATION_MS], for an elapsed time
    in milliseconds that fits a machine integer. *)
Definition progress (elapsed : Z) : float :=
  (of_uint63 (Uint63.of_Z elapsed) / 3000)%float.

Definition channel_okb (a : option Z) : bool :=
  match a with
  | Some a => ((0 <=? a) && (a <=? 255))%Z
  | None => false
  end.

(** Whether a float opacity is within one unit of an integer. *)
Definition within_one (a : option Z) (z : Z) : bool :=
  match a with
  | Some a => ((z - 1 <=? a) && (a <=? z + 1))%Z
  | None => false
  end.

(** An [int] operand of a float operation, converted exactly (for a
    magnitude that fits a machine integer and 53 bits) or rounded to
    nearest. *)
Definition of_int (n : Z) : float :=
  if (n <? 0)%Z then (- of_uint63 (Uint63.of_Z (- n)))%float
  else of_uint63 (Uint63.of_Z n).

(** [min(a, b)] and [max(a, b)] keep their first argument unless the second
    is strictly smaller, respectively larger. *)
Definition min (a b : float) : float := if (b <? a)%float then b else a.
Definition max (a b : float) : float := if (a <? b)%float then b else a.

Definition sum (xs : list float) : float := fold_left add xs 0%float.

(** Lines 250-255. *)
Definition avg_z (z_values : list float) : float :=
  (sum z_values / of_int (Z.of_nat (List.length z_values)))%float.

Definition color_progress (avg_z : float) : float :=
  let color_progress := ((avg_z + 150) / 300)%float in
  max 0 (min 1 color_progress).

(** Lines 258-265. *)
Definition gradient (color_progress : float) : option (Z * Z * Z) :=
  if (color_progress <? 0.5)%float then
    match int (0 + (100 - 0) * (color_progress * 2))%float,
          int (255 - (255 - 100) * (color_progress * 2))%float,
          int 255%float with
    | Some r, Some g, Some b => Some (r, g, b)
    | _, _, _ => None
    end
  else
    match int (100 + (255 - 100) * ((color_progress - 0.5) * 2))%float,
          int (100 - 100 * ((color_progress - 0.5) * 2))%float,
          int (255 - (255 - 150) * ((color_progress - 0.5) * 2))%float with
    | Some r, Some g, Some b => Some (r, g, b)
    | _, _, _ => None
    end.

(** Lines 109-111: the two screen coordinates, for a divisor
    [distance + z] other than zero.  [screen_width / 2] divides two
    integers; halving is exact, so that the quotient is the nearest float
    to the width, halved. *)
Definition screen_x (screen_width : Z) (x z distance : float) : option Z :=
  let scale := (distance / (distance + z))%float in
  int (of_int screen_width / 2 + x * scale)%float.

Definition screen_y (screen_height : Z) (y z distance : float) : option Z :=
  let scale := (distance / (distance + z))%float in
  int (of_int screen_height / 2 - y * scale)%float.

(** Whether each channel of a float colour is within one unit of an
    integer colour. *)
Definition rgb_within_one (c : option (Z * Z * Z)) (d : Z * Z * Z) : bool :=
  match c, d with
  | Some (r, g, b), (r', g', b') =>
      within_one (Some r) r' && within_one (Some g) g' && within_one (Some b) b'
  | None, _ => false
  end.

End Binary64.

(** The opacity at [elapsed] milliseconds in exact integer arithmetic. *)
Definition alpha_ms (elapsed : Z) : Z :=
  if (elapsed <? 600)%Z then (255 * elapsed / 600)%Z
  else if (2400 <? elapsed)%Z then (255 * (3000 - elapsed) / 600)%Z
  else 255%Z.

(** Lines 250-255: average depth of a face and its clamped normalisation. *)
Definition avg_z (z_values : list R) : R :=
  Py.sum z_values / INR (List.length z_values).

Definition color_progress (avg_z : R) : R :=
  let color_progress := (avg_z + 150) / 300 in
  Py.max 0 (Py.min 1 color_progress).

(** Lines 258-265: the gradient cyan -> blue -> magenta. *)
Definition gradient (color_progress : R) : Z * Z * Z :=
  if Rlt_dec color_progress 0.5 then
    let r := Py.int (0 + (100 - 0) * (color_progress * 2)) in
    let g := Py.int (255 - (255 - 100) * (color_progress * 2)) in
    let b := Py.int 255 in
    (r, g, b)
  else
    let r := Py.int (100 + (255 - 100) * ((color_progress - 0.5) * 2)) in
    let g := Py.int (100 - 100 * ((color_progress - 0.5) * 2)) in
    let b := Py.int (255 - (255 - 150) * ((color_progress - 0.5) * 2)) in
    (r, g, b).

Definition rgba : Type := Z * Z * Z * Z.

(** Line 267: [color = (r, g, b, alpha)]. *)
Definition fill_color (z_values : list R) (alpha : Z) : rgba :=
  let '(r, g, b) := gradient (color_progress (avg_z z_values)) in
  (r, g, b, alpha).

(** Line 273: the colour of the outline stroke. *)
Definition outline_color (alpha : Z) : rgba :=
  (255, 255, 255, Py.int (IZR alpha * 0.3))%Z.

(** The gradient at a whole depth within [-150, 150], in exact integer
    arithmetic. *)
Definition gradient_depth (d : Z) : Z * Z * Z :=
  if (d <? 0)%Z then
    ((2 * (d + 150)) / 3, (7650 - 31 * (d + 150)) / 30, 255)%Z
  else
    ((3000 + 31 * d) / 30, (300 - 2 * d) / 3, (2550 - 7 * d) / 10)%Z.

(** Lines 239-246: the points and depths a face gathers.  Only indices
    below the length are looked up; the lookup itself follows Python's
    indexing. *)
Fixpoint gather (projected_vertices : list projected) (idxs : list Z)
    (points : list (Z * Z)) (z_values : list R)
    : Py.result (list (Z * Z) * list R) :=
  match idxs with
  | [] => Py.Ok (points, z_values)
  | idx :: rest =>
      if (idx <? Z.of_nat (List.length projected_vertices))%Z then
        match Py.getitem projected_vertices idx with
        | Py.Ok (sx, sy, sz) =>
            gather projected_vertices rest (points ++ [(sx, sy)]) (z_values ++ [sz])
        | Py.Raise e => Py.Raise e
        end
      else gather projected_vertices rest points z_values
  end.

(** Lines 208-212: rotate and project every vertex. *)
Fixpoint project_all (letter_t : list vertex) (rotation_angle : R)
    (screen_width screen_height : Z) : Py.result (list projected) :=
  match letter_t with
  | [] => Py.Ok []
  | vertex :: rest =>
      let rotated := _rotate_vertex vertex rotation_angle in
      match _project_3d_to_2d rotated screen_width screen_height default_distance with
      | Py.Ok p =>
          match project_all rest rotation_angle screen_width screen_height with
          | Py.Ok ps => Py.Ok (p :: ps)
          | Py.Raise e => Py.Raise e
          end
      | Py.Raise e => Py.Raise e
      end
  end.

(** ** External calls and the environment *)

Inductive key : Set := K_ESCAPE | K_other.

(** An event of [pygame.event.get()], by the fields the loop reads. *)
Inductive event : Set :=
| QUIT
| KEYDOWN (k : key)
| other_event.

(** Every call that leaves the module, with the arguments it passes.
    Logging calls are recorded too. *)
Inductive call : Type :=
| import_module (name : string)
| pygame_init
| pygame_quit
| pygame_display_Info
| pygame_display_set_mode (w h : Z)
| pygame_display_set_caption (title : string)
| screen_fill
| screen_set_colorkey
| pygame_time_Clock
| pygame_Surface (w h : Z)
| pygame_event_get
| pygame_time_get_ticks
| render_surface_fill
| pygame_draw_polygon (color : rgba) (points : list (Z * Z)) (width : Z)
| screen_blit
| pygame_display_flip
| clock_tick (fps : Z)
| logger_debug (msg : string) (e : option Py.exn)
| logger_warning (msg : string) (e : option Py.exn).

(** The environment of one run.  [raises k c] is the outcome of call [c]
    when it is the [k]-th recorded call: [None] when it returns, [Some e]
    when it raises [e]. *)
Record environment : Type := {
  sys_platform_linux : bool;
  environ_DISPLAY : option string;
  raises : nat -> call -> option Py.exn;
  current_w : Z;
  current_h : Z;
  event_queue : nat -> list event;
  ticks : nat -> Z
}.

(** What a run of a piece of code ends in.  [Unfinished] stands for a loop
    that is still running when the modelled number of iterations is used
    up. *)
Inductive outcome (A : Type) : Type :=
| Done (a : A)
| Raised (e : Py.exn)
| Unfinished.
Arguments Done {A} a.
Arguments Raised {A} e.
Arguments Unfinished {A}.

(** A recorded call together with the exception it raised, if any. *)
Definition entry : Type := call * option Py.exn.

Definition trace : Type := list entry.

(** Code with effects: from the calls made so far to an outcome and the
    calls made then. *)
Definition M (A : Type) : Type := trace -> outcome A * trace.

Definition ret {A : Type} (a : A) : M A := fun tr => (Done a, tr).

Definition bind {A B : Type} (m : M A) (f : A -> M B) : M B :=
  fun tr =>
    match m tr with
    | (Done a, tr') => f a tr'
    | (Raised e, tr') => (Raised e, tr')
    | (Unfinished, tr') => (Unfinished, tr')
    end.

Notation "x <- m ;; k" := (bind m (fun x => k))
  (at level 61, m at next level, right associativity).
Notation "m ;;; k" := (bind m (fun _ => k))
  (at level 61, right associativity).

(** A pure expression that may raise. *)
Definition lift {A : Type} (r : Py.result A) : M A :=
  fun tr => match r with
            | Py.Ok a => (Done a, tr)
            | Py.Raise e => (Raised e, tr)
            end.

(** [try: body except <catches>: handler]. *)
Definition try_except {A : Type} (body : M A) (catches : Py.exn -> bool)
    (handler : Py.exn -> M A) : M A :=
  fun tr =>
    match body tr with
    | (Raised e, tr') => if catches e then handler e tr' else (Raised e, tr')
    | r => r
    end.

Definition out_of_fuel {A : Type} : M A := fun tr => (Unfinished, tr).

Section Run.

Variable env : environment.

(** An external call returning a value read from the environment. *)
Definition extcall {A : Type} (c : call) (value : nat -> A) : M A :=
  fun tr =>
    let k := List.length tr in
    match raises env k c with
    | Some e => (Raised e, tr ++ [(c, Some e)])
    | None => (Done (value k), tr ++ [(c, None)])
    end.

Definition call_ (c : call) : M unit := extcall c (fun _ => tt).

(** Logging never raises into the caller. *)
Definition log (c : call) : M unit := fun tr => (Done tt, tr ++ [(c, None)]).

(** [if not display]: unset or empty. *)
Definition truthy (s : option string) : bool :=
  match s with
  | None => false
  | Some s => negb (String.eqb s EmptyString)
  end.

(** [_can_show_splash()], lines 34-49. *)
Definition _can_show_splash : M bool :=
  let probe :=
    try_except
      (call_ (import_module "pygame") ;;;
       call_ pygame_init ;;;
       call_ pygame_quit ;;;
       ret true)
      Py.is_Exception
      (fun e => log (logger_debug "Pygame is not available" (Some e)) ;;;
                ret false) in
  if sys_platform_linux env then
    let display := environ_DISPLAY env in
    if negb (truthy display) then
      log (logger_debug "DISPLAY is not set, skipping splash" None) ;;;
      ret false
    else probe
  else probe.

(** Animation parameters, lines 134-137. *)
Definition TOTAL_DURATION_MS : Z := 3000.
Definition FADE_OUT_START : Z := 2500.
Definition FPS : Z := 60.
Definition FRAME_INTERVAL : Z := 1000 / FPS.

(** Lines 170-175: the event loop only ever clears [running]. *)
Definition handle_events (evs : list event) (running : bool) : bool :=
  fold_left
    (fun running ev =>
       match ev with
       | QUIT => false
       | KEYDOWN K_ESCAPE => false
       | _ => running
       end)
    evs running.

(** Lines 248-275: one face, once its points are gathered. *)
Definition draw_face (alpha : Z) (projected_vertices : list projected)
    (f : face) : M unit :=
  pz <- lift (gather projected_vertices f [] []) ;;
  let '(points, z_values) := pz in
  if (List.length points =? 4)%nat then
    let color := fill_color z_values alpha in
    try_except
      (call_ (pygame_draw_polygon color points 0) ;;;
       call_ (pygame_draw_polygon (outline_color alpha) points 2))
      (fun e => Py.exn_eqb e Py.ValueError || Py.exn_eqb e Py.IndexError)
      (fun _ => ret tt)
  else ret tt.

(** Line 238: [for face in faces]. *)
Fixpoint draw_faces (alpha : Z) (projected_vertices : list projected)
    (fs : list face) : M unit :=
  match fs with
  | [] => ret tt
  | f :: rest =>
      draw_face alpha projected_vertices f ;;;
      draw_faces alpha projected_vertices rest
  end.

(** Lines 187-281: one frame at [elapsed] milliseconds. *)
Definition render_frame (fs : list face) (letter_t : list vertex)
    (screen_width screen_height : Z) (elapsed : Z) : M unit :=
  let progress := IZR elapsed / IZR TOTAL_DURATION_MS in
  let rotation_angle := progress * PI * 4 in
  let alpha := alpha progress in
  call_ render_surface_fill ;;;
  projected_vertices <-
    lift (project_all letter_t rotation_angle screen_width screen_height) ;;
  draw_faces alpha projected_vertices fs ;;;
  call_ screen_blit ;;;
  call_ pygame_display_flip ;;;
  call_ (clock_tick FPS).

(** Lines 168-281: the loop, for at most [fuel] iterations. *)
Fixpoint main_loop (fuel : nat) (fs : list face) (letter_t : list vertex)
    (screen_width screen_height : Z) (start_time : option Z) : M unit :=
  match fuel with
  | O => out_of_fuel
  | S fuel' =>
      evs <- extcall pygame_event_get (event_queue env) ;;
      let running := handle_events evs true in
      start_time <-
        match start_time with
        | None => extcall pygame_time_get_ticks (ticks env)
        | Some t => ret t
        end ;;
      now <- extcall pygame_time_get_ticks (ticks env) ;;
      let elapsed := (now - start_time)%Z in
      if (elapsed >=? TOTAL_DURATION_MS)%Z then ret tt
      else
        render_frame fs letter_t screen_width screen_height elapsed ;;;
        if running then
          main_loop fuel' fs letter_t screen_width screen_height (Some start_time)
        else ret tt
  end.

(** Lines 126-131: the two imports; [False] stands for the early return. *)
Definition import_modules : M bool :=
  try_except
    (call_ (import_module "pygame") ;;;
     call_ (import_module "numpy") ;;;
     ret true)
    (fun e => Py.exn_eqb e Py.ImportError)
    (fun e =>
       log (logger_warning "Failed to import required modules" (Some e)) ;;;
       ret false).

(** Lines 140-284: the body of the outer [try]. *)
Definition animation (fs : list face) (fuel : nat) : M bool :=
  call_ pygame_init ;;;
  wh <- extcall pygame_display_Info (fun _ => (current_w env, current_h env)) ;;
  let '(screen_width, screen_height) := wh in
  call_ (pygame_display_set_mode screen_width screen_height) ;;;
  call_ (pygame_display_set_caption "Tayfa Loading...") ;;;
  call_ screen_fill ;;;
  call_ screen_set_colorkey ;;;
  call_ pygame_time_Clock ;;;
  let letter_t := _create_3d_letter_t 150 in
  call_ (pygame_Surface screen_width screen_height) ;;;
  main_loop fuel fs letter_t screen_width screen_height None ;;;
  call_ pygame_quit ;;;
  ret true.

(** Lines 286-292: the handler of the outer [try]. *)
Definition on_error (e : Py.exn) : M bool :=
  log (logger_warning "Error showing splash" (Some e)) ;;;
  try_except (call_ pygame_quit) (fun _ => true) (fun _ => ret tt) ;;;
  ret false.

(** [show_splash()], lines 116-292, over a face table [fs]. *)
Definition show_splash_with (fs : list face) (fuel : nat) : M bool :=
  can <- _can_show_splash ;;
  if negb can then ret false
  else
    imported <- import_modules ;;
    if negb imported then ret false
    else try_except (animation fs fuel) Py.is_Exception on_error.

(** [show_splash()] with the face table of the source. *)
Definition show_splash (fuel : nat) : M bool := show_splash_with faces fuel.

End Run.

(** ** The shading as the specification words it *)

(** Linear interpolation from [a] (at [t = 0]) to [b] (at [t = 1]). *)
Definition lerp (a b t : R) : R := a + (b - a) * t.

(** The alpha envelope before truncation: a linear ramp 0 -> 255 over
    [0, 0.2], constant 255 over [0.2, 0.8], a linear ramp 255 -> 0 over
    [0.8, 1.0]. *)
Definition alpha_envelope_spec (progress : R) : R :=
  if Rle_dec progress 0.2 then lerp 0 255 (progress / 0.2)
  else if Rle_dec progress 0.8 then 255
  else lerp 255 0 ((progress - 0.8) / 0.2).


(** Clamping to [0, 1]. *)
Definition clamp01 (x : R) : R :=
  if Rlt_dec x 0 then 0 else if Rlt_dec 1 x then 1 else x.

(** ** Colours handed to the drawing primitive *)

Definition channel_ok (c : Z) : Prop := (0 <= c <= 255)%Z.

Definition color_ok (c : rgba) : Prop :=
  let '(r, g, b, a) := c in
  channel_ok r /\ channel_ok g /\ channel_ok b /\ channel_ok a.

Definition entry_colors_ok (en : entry) : Prop :=
  match fst en with
  | pygame_draw_polygon color _ _ => color_ok color
  | _ => True
  end.

(** ** Index guard: positions and guarded indices *)

(** The element [xs[i]] denotes for an index within [-len, len). *)
Definition py_position (n i : Z) : nat :=
  Z.to_nat (if (i <? 0)%Z then (i + n)%Z else i).

(** The indices of a face that pass the guard [idx < len]. *)
Definition guarded (n : Z) (f : face) : list Z :=
  filter (fun idx => (idx <? n)%Z) f.

Definition point_of (p : projected) : Z * Z := fst p.
Definition depth_of (p : projected) : R := snd p.

(** ** Properties of traces and of runs *)

Definition is_draw (c : call) : bool :=
  match c with pygame_draw_polygon _ _ _ => true | _ => false end.




(** What a piece of code adds to the trace: when it returns (or is still
    running) every new entry satisfies [P]; when it raises [e], [E e] holds
    and every new entry satisfies [P] or [Pr e]. *)
Definition post {A : Type} (P : entry -> Prop) (E : Py.exn -> Prop)
    (Pr : Py.exn -> entry -> Prop) (r : outcome A) (new : trace) : Prop :=
  match r with
  | Raised e => E e /\ Forall (fun en => P en \/ Pr e en) new
  | _ => Forall P new
  end.

Definition ok {A : Type} (P : entry -> Prop) (E : Py.exn -> Prop)
    (Pr : Py.exn -> entry -> Prop) (m : M A) : Prop :=
  forall tr, exists new, snd (m tr) = tr ++ new /\ post P E Pr (fst (m tr)) new.

(** The only value a piece of code returns. *)
Definition returns {A : Type} (v : A) (m : M A) : Prop :=
  forall tr a tr', m tr = (Done a, tr') -> a = v.

(** Code that never leaves a loop running. *)
Definition finishes {A : Type} (m : M A) : Prop :=
  forall tr, fst (m tr) <> Unfinished.

(** Code that only adds calls to the trace. *)
Definition extends {A : Type} (m : M A) : Prop :=
  forall tr, exists new, snd (m tr) = tr ++ new.

(** After [N] further calls the clock has advanced by the whole duration. *)
Definition clock_advances (env : environment) (N : nat) : Prop :=
  forall j k, (j + N <= k)%nat ->
    (ticks env j + TOTAL_DURATION_MS <= ticks env k)%Z.




(** ** Environments and traces of concrete runs *)

(** The calls of a capability probe that succeeds. *)
Definition probe_trace : trace :=
  [ (import_module "pygame", None); (pygame_init, None); (pygame_quit, None) ].

(** The calls made when the probe and both imports succeed. *)
Definition imported_trace : trace :=
  probe_trace ++
  [ (import_module "pygame", None); (import_module "numpy", None) ].

(** An environment in which every call returns. *)
Definition quiet_env : environment :=
  {| sys_platform_linux := false;
     environ_DISPLAY := None;
     raises := fun _ _ => None;
     current_w := 1920;
     current_h := 1080;
     event_queue := fun _ => [];
     ticks := fun k => (Z.of_nat k * 16)%Z |}.

(** Linux without [DISPLAY]. *)
Definition headless_env : environment :=
  {| sys_platform_linux := true;
     environ_DISPLAY := None;
     raises := fun _ _ => None;
     current_w := 0;
     current_h := 0;
     event_queue := fun _ => [];
     ticks := fun _ => 0%Z |}.

(** [pygame.display.set_mode] raises [pygame.error], a [RuntimeError]. *)
Definition display_error_env : environment :=
  {| sys_platform_linux := true;
     environ_DISPLAY := Some ":0"%string;
     raises := fun _ c =>
                 match c with
                 | pygame_display_set_mode _ _ => Some Py.RuntimeError
                 | _ => None
                 end;
     current_w := 1920;
     current_h := 1080;
     event_queue := fun _ => [];
     ticks := fun k => (Z.of_nat k * 16)%Z |}.




(** The clock jumps by the whole duration between two readings, so that
    the loop is left in its first iteration, and the [pygame.quit()] of
    line 283 is interrupted. *)
Definition teardown_interrupted_env : environment :=
  {| sys_platform_linux := false;
     environ_DISPLAY := None;
     raises := fun k c =>
                 match c with
                 | pygame_quit =>
                     if (k =? 2)%nat then None else Some Py.KeyboardInterrupt
                 | _ => None
                 end;
     current_w := 1920;
     current_h := 1080;
     event_queue := fun _ => [];
     ticks := fun k => (Z.of_nat k * 3000)%Z |}.

(** Sixteen projected vertices, all at the centre of the screen. *)
Definition flat_vertices : list projected := repeat (960%Z, 540%Z, 0) 16.

(** ** Coordinates, faces and the polygons of a frame *)

Definition vertex_x (v : vertex) : R := fst (fst v).
Definition vertex_y (v : vertex) : R := snd (fst v).
Definition vertex_z (v : vertex) : R := snd v.

(** The vertices a face selects from the letter. *)
Definition face_vertices (size : R) (f : face) : list vertex :=
  map (fun i => nth (Z.to_nat i) (_create_3d_letter_t size) (0, 0, 0)) f.

(** The points and the depths a well-formed face selects. *)
Definition face_points (pv : list projected) (f : face) : list (Z * Z) :=
  map (fun i => point_of
                  (nth (py_position (Z.of_nat (List.length pv)) i) pv
                     (0%Z, 0%Z, 0))) f.

Definition face_depths (pv : list projected) (f : face) : list R :=
  map (fun i => depth_of
                  (nth (py_position (Z.of_nat (List.length pv)) i) pv
                     (0%Z, 0%Z, 0))) f.

(** The two calls of a face that is drawn: the fill, then the outline. *)
Definition face_entries (a : Z) (pv : list projected) (f : face) : trace :=
  [ (pygame_draw_polygon (fill_color (face_depths pv f) a)
       (face_points pv f) 0, None);
    (pygame_draw_polygon (outline_color a) (face_points pv f) 2, None) ].

(** ** Further properties of runs *)

(** The three calls of the probe, in order. *)
Definition probe_calls : list call :=
  [ import_module "pygame"; pygame_init; pygame_quit ].

Definition returned_calls (cs : list call) : trace :=
  map (fun c => (c, None)) cs.

(** Code whose last call, when it returns, is a [pygame.quit()] that
    returned. *)
Definition quits_last {A : Type} (m : M A) : Prop :=
  forall tr r tr', m tr = (Done r, tr') ->
    exists init, tr' = init ++ [(pygame_quit, None)].

(** An event that asks to leave: the window closed, or Escape pressed. *)
Definition quit_requested (ev : event) : bool :=
  match ev with
  | QUIT => true
  | KEYDOWN K_ESCAPE => true
  | _ => false
  end.

(** The clock never goes back. *)
Definition clock_monotone (env : environment) : Prop :=
  forall j k, (j <= k)%nat -> (ticks env j <= ticks env k)%Z.

(** Code that adds to the trace only entries with colours in range. *)
Definition keeps_colors {A : Type} (m : M A) : Prop :=
  ok entry_colors_ok (fun _ => True) (fun _ _ => False) m.

(** ** Further environments *)

(** An environment whose first poll returns a close request. *)
Definition closing_env : environment :=
  {| sys_platform_linux := false;
     environ_DISPLAY := None;
     raises := fun _ _ => None;
     current_w := 1920;
     current_h := 1080;
     event_queue := fun _ => [other_event; QUIT];
     ticks := fun k => (Z.of_nat k * 16)%Z |}.

(** The first polygon call of a run raises [ValueError]. *)
Definition bad_polygon_env : environment :=
  {| sys_platform_linux := false;
     environ_DISPLAY := None;
     raises := fun k c =>
                 match c with
                 | pygame_draw_polygon _ _ _ =>
                     if (k =? 0)%nat then Some Py.ValueError else None
                 | _ => None
                 end;
     current_w := 1920;
     current_h := 1080;
     event_queue := fun _ => [];
     ticks := fun k => (Z.of_nat k * 16)%Z |}.

(** ** Facts on Python numerics *)

Lemma int_of_nonneg (x : R) (z : Z) :
  IZR z <= x < IZR z + 1 -> 0 <= x -> Py.int x = z.
Proof.
  intros Hz Hx. unfold Py.int.
  destruct (Rle_dec 0 x) as [_ | Hn]; [| contradiction].
  symmetry. apply Int_part_spec. lra.
Qed.

Lemma int_IZR_nonneg (z : Z) : (0 <= z)%Z -> Py.int (IZR z) = z.
Proof.
  intros Hz. apply int_of_nonneg; [lra |]. now apply IZR_le.
Qed.

Lemma int_range (x : R) (n : Z) :
  0 <= x -> x <= IZR n -> (0 <= Py.int x <= n)%Z.
Proof.
  intros Hx Hn. unfold Py.int.
  destruct (Rle_dec 0 x) as [_ | Hc]; [| contradiction].
  destruct (base_Int_part x) as [Hlo Hhi].
  split.
  - assert (H : (-1 < Int_part x)%Z) by (apply lt_IZR; lra). lia.
  - apply le_IZR. lra.
Qed.

Lemma int_half (w : Z) : (0 <= w)%Z -> Py.int (IZR w / 2) = (w / 2)%Z.
Proof.
  intros Hw.
  pose proof (Z.div_mod w 2 ltac:(lia)) as Hdm.
  pose proof (Z.mod_pos_bound w 2 ltac:(lia)) as Hr.
  assert (Hq : (0 <= w / 2)%Z) by (apply Z.div_pos; lia).
  assert (HR : IZR w = 2 * IZR (w / 2) + IZR (w mod 2)).
  { rewrite Hdm at 1. rewrite plus_IZR, mult_IZR. reflexivity. }
  assert (H0 : 0 <= IZR (w mod 2)) by (apply IZR_le; lia).
  assert (H1 : IZR (w mod 2) <= 1) by (apply IZR_le; lia).
  assert (H2 : 0 <= IZR (w / 2)) by (apply IZR_le; lia).
  apply int_of_nonneg; lra.
Qed.

Lemma int_div (a b : Z) :
  (0 <= a)%Z -> (0 < b)%Z -> Py.int (IZR a / IZR b) = (a / b)%Z.
Proof.
  intros Ha Hb.
  pose proof (Z.div_mod a b ltac:(lia)) as Hdm.
  pose proof (Z.mod_pos_bound a b Hb) as Hr.
  assert (Hq : (0 <= a / b)%Z) by (apply Z.div_pos; lia).
  assert (HR : IZR a = IZR b * IZR (a / b) + IZR (a mod b)).
  { rewrite Hdm at 1. rewrite plus_IZR, mult_IZR. reflexivity. }
  assert (Hb0 : 0 < IZR b) by (now apply IZR_lt).
  assert (H0 : 0 <= IZR (a mod b)) by (apply IZR_le; lia).
  assert (H1 : IZR (a mod b) < IZR b) by (apply IZR_lt; lia).
  assert (H2 : 0 <= IZR (a / b)) by (now apply IZR_le).
  assert (E : IZR a / IZR b = IZR (a / b) + IZR (a mod b) / IZR b).
  { rewrite HR. field. lra. }
  assert (F0 : 0 <= IZR (a mod b) / IZR b).
  { apply Rmult_le_pos; [exact H0 |]. apply Rlt_le. now apply Rinv_0_lt_compat. }
  assert (F1 : IZR (a mod b) / IZR b < 1).
  { apply (Rmult_lt_reg_r (IZR b)); [exact Hb0 |].
    unfold Rdiv. rewrite Rmult_assoc, Rinv_l by lra. lra. }
  apply int_of_nonneg; lra.
Qed.

Lemma clamp_color_progress (a : R) :
  color_progress a = clamp01 ((a + 150) / 300).
Proof.
  unfold color_progress, clamp01, Py.max, Py.min.
  repeat (destruct (Rlt_dec _ _)); lra.
Qed.

Lemma color_progress_range (a : R) : 0 <= color_progress a <= 1.
Proof.
  rewrite clamp_color_progress. unfold clamp01.
  repeat (destruct (Rlt_dec _ _)); lra.
Qed.

(** ** Geometry generator *)

Lemma faces_shape :
  List.length faces = 12%nat /\
  Forall (fun f : face =>
            List.length f = 4%nat /\ Forall (fun i => (0 <= i < 16)%Z) f) faces.
Proof.
  split; [reflexivity |].
  unfold faces. repeat constructor; lia.
Qed.

(** C2.  For a positive size the generator returns exactly 16 vertices; the
    face table of the renderer has exactly 12 faces, each of exactly 4
    indices within [0, 16); and two calls with the same size return the same
    vertices. *)
Theorem create_3d_letter_t_shape (size : R) (Hsize : 0 < size) :
  List.length (_create_3d_letter_t size) = 16%nat /\
  List.length faces = 12%nat /\
  (forall f, In f faces ->
     List.length f = 4%nat /\ forall i, In i f -> (0 <= i < 16)%Z) /\
  (forall size', size' = size ->
     _create_3d_letter_t size' = _create_3d_letter_t size).
Proof.
  destruct faces_shape as [Hlen Hall].
  rewrite Forall_forall in Hall.
  split; [reflexivity |]. split; [exact Hlen |]. split.
  - intros f Hf. destruct (Hall f Hf) as [H4 Hi].
    rewrite Forall_forall in Hi. split; assumption.
  - intros size' ->. reflexivity.
Qed.

Lemma create_3d_letter_t_shape_witness :
  0 < 150 /\
  List.length (_create_3d_letter_t 150) = 16%nat /\
  List.length faces = 12%nat /\
  (forall f, In f faces ->
     List.length f = 4%nat /\ forall i, In i f -> (0 <= i < 16)%Z) /\
  (forall size', size' = 150 ->
     _create_3d_letter_t size' = _create_3d_letter_t 150).
Proof.
  assert (H : 0 < 150) by lra.
  split; [exact H | exact (create_3d_letter_t_shape 150 H)].
Defined.

(** ** Alpha envelope *)

Lemma alpha_refines_envelope (p : R) :
  alpha p = Py.int (alpha_envelope_spec p).
Proof.
  unfold alpha, alpha_envelope_spec, lerp.
  destruct (Rlt_dec p 0.2) as [Hlt | Hge].
  - destruct (Rle_dec p 0.2); [| lra]. f_equal. lra.
  - destruct (Rgt_dec p 0.8) as [Hgt | Hle].
    + destruct (Rle_dec p 0.2); [lra |].
      destruct (Rle_dec p 0.8); [lra |]. f_equal. lra.
    + destruct (Rle_dec p 0.2).
      * replace (0 + (255 - 0) * (p / 0.2)) with (IZR 255) by lra.
        now rewrite int_IZR_nonneg.
      * destruct (Rle_dec p 0.8); [| lra].
        now rewrite int_IZR_nonneg.
Qed.

Lemma alpha_envelope_lipschitz (p q : R) :
  Rabs (alpha_envelope_spec p - alpha_envelope_spec q) <= 1275 * Rabs (p - q).
Proof.
  unfold alpha_envelope_spec, lerp.
  repeat (destruct (Rle_dec _ _));
    unfold Rabs; repeat (destruct (Rcase_abs _)); lra.
Qed.

Lemma alpha_envelope_continuous (p : R) :
  continuity_pt alpha_envelope_spec p.
Proof.
  unfold continuity_pt, continue_in, limit1_in, limit_in.
  intros eps Heps. exists (eps / 1275). split; [lra |].
  intros x [_ Hx]. simpl in *. unfold R_dist in *.
  pose proof (alpha_envelope_lipschitz x p) as HL. lra.
Qed.

(** C3.  The alpha envelope takes the values 0, 255, 255, 255, 0 at progress
    0, 0.2, 0.5, 0.8, 1.0; it is the truncation of the piecewise-linear
    envelope (ramp up on [0, 0.2], constant 255, ramp down on [0.8, 1.0]),
    and that envelope is continuous at the boundaries 0.2 and 0.8. *)
Theorem alpha_envelope_points :
  alpha 0 = 0%Z /\ alpha 0.2 = 255%Z /\ alpha 0.5 = 255%Z /\
  alpha 0.8 = 255%Z /\ alpha 1.0 = 0%Z /\
  (forall p, alpha p = Py.int (alpha_envelope_spec p)) /\
  alpha_envelope_spec 0 = 0 /\
  alpha_envelope_spec 0.2 = 255 /\
  alpha_envelope_spec 0.8 = 255 /\
  alpha_envelope_spec 1.0 = 0 /\
  continuity_pt alpha_envelope_spec 0.2 /\
  continuity_pt alpha_envelope_spec 0.8.
Proof.
  assert (E0 : alpha_envelope_spec 0 = 0).
  { unfold alpha_envelope_spec, lerp. destruct (Rle_dec 0 0.2); lra. }
  assert (E2 : alpha_envelope_spec 0.2 = 255).
  { unfold alpha_envelope_spec, lerp. destruct (Rle_dec 0.2 0.2); lra. }
  assert (E5 : alpha_envelope_spec 0.5 = 255).
  { unfold alpha_envelope_spec, lerp.
    destruct (Rle_dec 0.5 0.2); [lra |]. destruct (Rle_dec 0.5 0.8); lra. }
  assert (E8 : alpha_envelope_spec 0.8 = 255).
  { unfold alpha_envelope_spec, lerp.
    destruct (Rle_dec 0.8 0.2); [lra |]. destruct (Rle_dec 0.8 0.8); lra. }
  assert (E1 : alpha_envelope_spec 1.0 = 0).
  { unfold alpha_envelope_spec, lerp.
    destruct (Rle_dec 1.0 0.2); [lra |]. destruct (Rle_dec 1.0 0.8); lra. }
  repeat split;
    try (rewrite alpha_refines_envelope;
         rewrite ?E0, ?E2, ?E5, ?E8, ?E1;
         first [ exact (int_IZR_nonneg 0 ltac:(lia))
               | exact (int_IZR_nonneg 255 ltac:(lia)) ]);
    try assumption;
    try apply alpha_refines_envelope;
    apply alpha_envelope_continuous.
Qed.

(** ** Transform engine *)

Lemma sin_cos_square (a : R) : sin a * sin a + cos a * cos a = 1.
Proof. pose proof (sin2_cos2 a) as H. unfold Rsqr in H. exact H. Qed.

(** C5.  Rotating by 0 returns the vertex; rotating by [theta] and then by
    [- theta] returns the vertex (exactly, over the reals, hence within
    every tolerance); the y coordinate is the same for every angle. *)
Theorem rotate_vertex_laws (v : vertex) (theta : R) :
  _rotate_vertex v 0 = v /\
  _rotate_vertex (_rotate_vertex v theta) (- theta) = v /\
  (forall tol, 0 < tol ->
     let '(x, y, z) := v in
     let '(x', y', z') := _rotate_vertex (_rotate_vertex v theta) (- theta) in
     Rabs (x' - x) <= tol /\ Rabs (y' - y) <= tol /\ Rabs (z' - z) <= tol) /\
  snd (fst (_rotate_vertex v theta)) = snd (fst v).
Proof.
  destruct v as [[x y] z].
  assert (Hback : _rotate_vertex (_rotate_vertex (x, y, z) theta) (- theta)
                  = (x, y, z)).
  { unfold _rotate_vertex. rewrite cos_neg, sin_neg.
    pose proof (sin_cos_square theta) as H.
    f_equal; [f_equal |].
    - replace ((x * cos theta - z * sin theta) * cos theta -
               (x * sin theta + z * cos theta) * - sin theta)
        with (x * (sin theta * sin theta + cos theta * cos theta)) by ring.
      rewrite H. ring.
    - replace ((x * cos theta - z * sin theta) * - sin theta +
               (x * sin theta + z * cos theta) * cos theta)
        with (z * (sin theta * sin theta + cos theta * cos theta)) by ring.
      rewrite H. ring. }
  split; [| split; [exact Hback | split]].
  - unfold _rotate_vertex. rewrite cos_0, sin_0. f_equal; [f_equal |]; ring.
  - intros tol Htol. rewrite Hback.
    replace (x - x) with 0 by ring. replace (y - y) with 0 by ring.
    replace (z - z) with 0 by ring. rewrite Rabs_R0. lra.
  - reflexivity.
Qed.

(** ** Projector *)

Lemma project_origin (w h : Z) (D : R) :
  (0 <= w)%Z -> (0 <= h)%Z -> D <> 0 ->
  _project_3d_to_2d (0, 0, 0) w h D = Py.Ok ((w / 2)%Z, (h / 2)%Z, 0).
Proof.
  intros Hw Hh HD. unfold _project_3d_to_2d.
  destruct (Req_dec_T (D + 0) 0) as [E | _]; [exfalso; lra |].
  replace (IZR w / 2 + 0 * (D / (D + 0))) with (IZR w / 2) by ring.
  replace (IZR h / 2 - 0 * (D / (D + 0))) with (IZR h / 2) by ring.
  now rewrite !int_half.
Qed.

(** C6, as the code has it.  For positive integer width and height of at
    most 2^53 (up to there an integer and its half are floats, so that
    [screen_width / 2] is exact) and a finite projection distance other
    than zero, the origin projects to (width div 2, height div 2, 0): the
    screen coordinates are the truncations of width/2 and height/2. *)
Theorem project_origin_center (w h : Z) (D : R)
    (Hw : (0 < w <= 2 ^ 53)%Z) (Hh : (0 < h <= 2 ^ 53)%Z) (HD : D <> 0) :
  _project_3d_to_2d (0, 0, 0) w h D = Py.Ok ((w / 2)%Z, (h / 2)%Z, 0) /\
  Py.int (IZR w / 2) = (w / 2)%Z /\ Py.int (IZR h / 2) = (h / 2)%Z.
Proof.
  split; [apply project_origin; (lia || assumption) |].
  split; apply int_half; lia.
Qed.

Lemma project_origin_center_witness :
  _project_3d_to_2d (0, 0, 0) 1920 1080 500 = Py.Ok (960%Z, 540%Z, 0) /\
  Py.int (IZR 1920 / 2) = 960%Z /\ Py.int (IZR 1080 / 2) = 540%Z.
Proof.
  exact (project_origin_center 1920 1080 500
           ltac:(lia) ltac:(lia) ltac:(lra)).
Defined.

(** C6 as stated fails at distance 0: the division raises. *)
Lemma project_origin_distance_zero :
  _project_3d_to_2d (0, 0, 0) 1920 1080 0 = Py.Raise Py.ZeroDivisionError.
Proof.
  unfold _project_3d_to_2d.
  destruct (Req_dec_T (0 + 0) 0) as [_ | N]; [reflexivity | exfalso; lra].
Qed.

(** With an odd width the screen coordinate is not the real width/2. *)
Lemma project_origin_odd_width :
  _project_3d_to_2d (0, 0, 0) 3 3 500 = Py.Ok (1%Z, 1%Z, 0) /\
  IZR 1 <> IZR 3 / 2.
Proof.
  split; [apply (project_origin 3 3 500); (lia || lra) | lra].
Qed.

(** ** Depth of the rotated letter *)

Lemma rotated_depth_square (x z theta : R) :
  (x * sin theta + z * cos theta) * (x * sin theta + z * cos theta)
  <= x * x + z * z.
Proof.
  pose proof (sin_cos_square theta) as H.
  pose proof (Rle_0_sqr (x * cos theta - z * sin theta)) as Hsq.
  unfold Rsqr in Hsq.
  replace (x * x + z * z)
    with ((x * x + z * z) * (sin theta * sin theta + cos theta * cos theta))
    by (rewrite H; ring).
  lra.
Qed.

Lemma letter_t_150_norm (v : vertex) :
  In v (_create_3d_letter_t 150) ->
  let '(x, y, z) := v in x * x + z * z <= 8325.
Proof.
  unfold _create_3d_letter_t. simpl.
  intros H.
  repeat (destruct H as [<- | H]; [lra |]).
  contradiction.
Qed.

Lemma project_defined (v : vertex) (w h : Z) (D : R) :
  D + snd v <> 0 ->
  exists sx sy, _project_3d_to_2d v w h D = Py.Ok (sx, sy, snd v).
Proof.
  destruct v as [[x y] z]. simpl. intros H. unfold _project_3d_to_2d.
  destruct (Req_dec_T (D + z) 0) as [E | _]; [contradiction |].
  eauto.
Qed.

Lemma rotated_letter_depth (v : vertex) (theta : R) :
  In v (_create_3d_letter_t 150) ->
  let z' := snd (_rotate_vertex v theta) in
  z' * z' <= 8325 /\ Rabs z' < 92 /\ default_distance + z' > 0.
Proof.
  intros Hv. pose proof (letter_t_150_norm v Hv) as Hn.
  destruct v as [[x y] z]. unfold _rotate_vertex. simpl.
  pose proof (rotated_depth_square x z theta) as Hsq.
  set (z' := x * sin theta + z * cos theta) in *.
  assert (Hz : z' * z' <= 8325) by lra.
  assert (Habs : Rabs z' < 92).
  { unfold Rabs. destruct (Rcase_abs z'); nra. }
  repeat split; try assumption.
  unfold default_distance. unfold Rabs in Habs.
  destruct (Rcase_abs z'); lra.
Qed.

(** C9.  For every vertex of the letter of size 150 and every angle, the
    rotated depth z' has z'^2 <= 90^2 + 15^2 = 8325, so |z'| < 92 and
    500 + z' > 0: the projector does not divide by zero and returns screen
    coordinates. *)
Theorem projection_denominator_positive (v : vertex) (theta : R) (w h : Z)
    (Hv : In v (_create_3d_letter_t 150)) :
  let '(_, _, z') := _rotate_vertex v theta in
  z' * z' <= 8325 /\ Rabs z' < 92 /\ default_distance + z' > 0 /\
  exists sx sy : Z,
    _project_3d_to_2d (_rotate_vertex v theta) w h default_distance
    = Py.Ok (sx, sy, z').
Proof.
  pose proof (rotated_letter_depth v theta Hv) as H.
  pose proof (project_defined (_rotate_vertex v theta) w h default_distance)
    as Hp.
  destruct (_rotate_vertex v theta) as [[x' y'] z']. simpl in *.
  destruct H as (Hz & Habs & Hpos).
  repeat split; try assumption.
  apply Hp. lra.
Qed.

Lemma projection_denominator_positive_witness :
  In (nth 0 (_create_3d_letter_t 150) (0, 0, 0)) (_create_3d_letter_t 150) /\
  let '(_, _, z') :=
    _rotate_vertex (nth 0 (_create_3d_letter_t 150) (0, 0, 0)) 0 in
  z' * z' <= 8325 /\ Rabs z' < 92 /\ default_distance + z' > 0 /\
  exists sx sy : Z,
    _project_3d_to_2d
      (_rotate_vertex (nth 0 (_create_3d_letter_t 150) (0, 0, 0)) 0)
      1920 1080 default_distance
    = Py.Ok (sx, sy, z').
Proof.
  assert (H : In (nth 0 (_create_3d_letter_t 150) (0, 0, 0))
                 (_create_3d_letter_t 150)) by (left; reflexivity).
  split; [exact H |].
  exact (projection_denominator_positive _ 0 1920 1080 H).
Defined.

(** Every frame projects all sixteen vertices. *)
Lemma project_all_defined (l : list vertex) (theta : R) (w h : Z) :
  (forall v, In v l -> default_distance + snd (_rotate_vertex v theta) <> 0) ->
  exists ps, project_all l theta w h = Py.Ok ps /\
             List.length ps = List.length l.
Proof.
  induction l as [| v l IH]; intros H; simpl.
  - exists []. split; reflexivity.
  - destruct (project_defined (_rotate_vertex v theta) w h default_distance)
      as (sx & sy & E); [apply H; now left |].
    rewrite E.
    destruct IH as (ps & Eps & Hlen); [intros u Hu; apply H; now right |].
    rewrite Eps. eexists. split; [reflexivity |]. simpl. now rewrite Hlen.
Qed.

Lemma project_all_length (l : list vertex) (theta : R) (w h : Z)
    (ps : list projected) :
  project_all l theta w h = Py.Ok ps -> List.length ps = List.length l.
Proof.
  revert ps. induction l as [| v l IH]; intros ps; simpl.
  - intros [= <-]. reflexivity.
  - destruct (_project_3d_to_2d _ _ _ _) as [p | e]; [| discriminate].
    destruct (project_all l theta w h) as [ps' | e]; [| discriminate].
    intros [= <-]. simpl. f_equal. now apply IH.
Qed.

Lemma project_all_letter_t (theta : R) (w h : Z) :
  exists ps, project_all (_create_3d_letter_t 150) theta w h = Py.Ok ps /\
             List.length ps = 16%nat.
Proof.
  destruct (project_all_defined (_create_3d_letter_t 150) theta w h)
    as (ps & E & Hl).
  - intros v Hv.
    destruct (rotated_letter_depth v theta Hv) as (_ & _ & Hpos). lra.
  - exists ps. split; [exact E | exact Hl].
Qed.

(** ** Face shader: the gradient *)

Lemma avg_z_four (a b c d : R) : avg_z [a; b; c; d] = (a + b + c + d) / 4.
Proof.
  unfold avg_z, Py.sum. rewrite INR_IZR_INZ. simpl. lra.
Qed.






(** ** Colour channels stay within [0, 255] *)

Lemma alpha_range (p : R) : 0 <= p < 1 -> channel_ok (alpha p).
Proof.
  intros Hp. unfold channel_ok, alpha.
  destruct (Rlt_dec p 0.2).
  - apply int_range; lra.
  - destruct (Rgt_dec p 0.8); [apply int_range; lra | lia].
Qed.

Lemma gradient_range (cp : R) :
  0 <= cp <= 1 ->
  let '(r, g, b) := gradient cp in
  channel_ok r /\ channel_ok g /\ channel_ok b.
Proof.
  intros Hcp. unfold gradient, channel_ok.
  destruct (Rlt_dec cp 0.5); (split; [| split]); apply int_range; lra.
Qed.

Lemma outline_alpha_range (a : Z) :
  channel_ok a -> channel_ok (Py.int (IZR a * 0.3)).
Proof.
  unfold channel_ok. intros [H0 H1].
  assert (R0 : 0 <= IZR a) by (now apply IZR_le).
  assert (R1 : IZR a <= 255) by (now apply IZR_le).
  apply int_range; lra.
Qed.

Lemma colors_in_range (z_values : list R) (a : Z) :
  channel_ok a ->
  color_ok (fill_color z_values a) /\ color_ok (outline_color a).
Proof.
  intros Ha. split.
  - unfold fill_color.
    pose proof (gradient_range _ (color_progress_range (avg_z z_values))) as H.
    destruct (gradient _) as [[r g] b]. simpl. tauto.
  - unfold outline_color. simpl.
    split; [| split; [| split]]; try (unfold channel_ok; lia).
    apply outline_alpha_range; assumption.
Qed.

(** ** A program logic for the calls a run records *)

Section Logic.

Variable env : environment.
Variable P : entry -> Prop.
Variable E : Py.exn -> Prop.
Variable Pr : Py.exn -> entry -> Prop.

Lemma ok_ret {A : Type} (a : A) : ok P E Pr (ret a).
Proof. intros tr. exists []. rewrite app_nil_r. split; constructor. Qed.

Lemma ok_out_of_fuel {A : Type} : ok P E Pr (@out_of_fuel A).
Proof. intros tr. exists []. rewrite app_nil_r. split; constructor. Qed.

Lemma ok_lift {A : Type} (r : Py.result A) :
  (forall e, r = Py.Raise e -> E e) -> ok P E Pr (lift r).
Proof.
  intros H tr. exists []. rewrite app_nil_r. unfold lift.
  destruct r as [a | e]; simpl; split; auto.
Qed.

Lemma ok_log (c : call) : P (c, None) -> ok P E Pr (log c).
Proof.
  intros H tr. exists [(c, None)]. split; [reflexivity |].
  simpl. auto.
Qed.

Lemma ok_extcall {A : Type} (c : call) (value : nat -> A) :
  P (c, None) ->
  (forall k e, raises env k c = Some e ->
               E e /\ (P (c, Some e) \/ Pr e (c, Some e))) ->
  ok P E Pr (extcall env c value).
Proof.
  intros Hn Hr tr. unfold extcall.
  destruct (raises env (List.length tr) c) as [e |] eqn:Ec.
  - exists [(c, Some e)]. split; [reflexivity |].
    destruct (Hr _ _ Ec) as [He Hp]. simpl. auto.
  - exists [(c, None)]. split; [reflexivity |]. simpl. auto.
Qed.

Lemma ok_bind {A B : Type} (m : M A) (f : A -> M B) :
  ok P E Pr m -> (forall a, ok P E Pr (f a)) -> ok P E Pr (bind m f).
Proof.
  intros Hm Hf tr. destruct (Hm tr) as (n1 & E1 & Q1). unfold bind.
  destruct (m tr) as [r tr1]. simpl in E1, Q1. subst tr1.
  destruct r as [a | e |].
  - destruct (Hf a (tr ++ n1)) as (n2 & E2 & Q2).
    exists (n1 ++ n2). rewrite E2, app_assoc. split; [reflexivity |].
    destruct (fst (f a (tr ++ n1))) as [b | e |]; simpl in *.
    + apply Forall_app; auto.
    + destruct Q2 as [He Q2]. split; [exact He |].
      apply Forall_app. split; [| exact Q2].
      eapply Forall_impl; [| exact Q1]. auto.
    + apply Forall_app; auto.
  - exists n1. auto.
  - exists n1. auto.
Qed.

Lemma ok_bind_lift {A B : Type} (r : Py.result A) (f : A -> M B) :
  (forall e, r = Py.Raise e -> E e) ->
  (forall a, r = Py.Ok a -> ok P E Pr (f a)) ->
  ok P E Pr (bind (lift r) f).
Proof.
  intros He Hf tr. unfold bind, lift. destruct r as [a | e].
  - exact (Hf a eq_refl tr).
  - exists []. rewrite app_nil_r. simpl. auto.
Qed.

Lemma ok_try_except {A : Type} (Eb : Py.exn -> Prop)
    (Prb : Py.exn -> entry -> Prop) (body : M A) (catches : Py.exn -> bool)
    (handler : Py.exn -> M A) :
  ok P Eb Prb body ->
  (forall e, Eb e -> catches e = true ->
             (forall en, Prb e en -> P en) /\ ok P E Pr (handler e)) ->
  (forall e, Eb e -> catches e = false ->
             E e /\ forall en, Prb e en -> Pr e en) ->
  ok P E Pr (try_except body catches handler).
Proof.
  intros Hb Hc Hn tr. destruct (Hb tr) as (n1 & E1 & Q1). unfold try_except.
  destruct (body tr) as [r tr1]. simpl in E1, Q1. subst tr1.
  destruct r as [a | e |]; try (exists n1; auto; fail).
  destruct Q1 as [He Q1].
  destruct (catches e) eqn:Ec.
  - destruct (Hc e He Ec) as [Himp Hh].
    assert (Q1' : Forall P n1).
    { eapply Forall_impl; [| exact Q1]. intros en [H | H]; auto. }
    destruct (Hh (tr ++ n1)) as (n2 & E2 & Q2).
    exists (n1 ++ n2). rewrite E2, app_assoc. split; [reflexivity |].
    destruct (fst (handler e (tr ++ n1))) as [b | e' |]; simpl in *.
    + apply Forall_app; auto.
    + destruct Q2 as [He' Q2]. split; [exact He' |].
      apply Forall_app. split; [| exact Q2].
      eapply Forall_impl; [| exact Q1']. auto.
    + apply Forall_app; auto.
  - destruct (Hn e He Ec) as [HE Himp].
    exists n1. split; [reflexivity |]. simpl. split; [exact HE |].
    eapply Forall_impl; [| exact Q1]. intros en [H | H]; auto.
Qed.

End Logic.

(** ** The frame loop in the program logic *)



Section Frames.

Variable env : environment.
Variable P : entry -> Prop.
Variable E : Py.exn -> Prop.
Variable Pr : Py.exn -> entry -> Prop.
Variable Good : Z -> Prop.
Variable fs : list face.
Variable letter_t : list vertex.

Hypothesis Hcall : forall (A : Type) (c : call) (value : nat -> A),
  is_draw c = false -> ok P E Pr (extcall env c value).
Hypothesis Hproj : forall theta w h e,
  project_all letter_t theta w h = Py.Raise e -> E e.
Hypothesis Hface : forall a pv f,
  Good a -> List.length pv = List.length letter_t -> In f fs ->
  ok P E Pr (draw_face env a pv f).

Lemma ok_draw_faces (a : Z) (pv : list projected) (fs' : list face) :
  Good a -> List.length pv = List.length letter_t -> incl fs' fs ->
  ok P E Pr (draw_faces env a pv fs').
Proof.
  intros Ha Hl. induction fs' as [| f rest IH]; intros Hin; simpl.
  - apply ok_ret.
  - apply ok_bind.
    + apply Hface; [exact Ha | exact Hl | apply Hin; now left].
    + intros _. apply IH. intros g Hg. apply Hin. now right.
Qed.

Lemma ok_render_frame (w h elapsed : Z) :
  Good (alpha (IZR elapsed / IZR TOTAL_DURATION_MS)) ->
  ok P E Pr (render_frame env fs letter_t w h elapsed).
Proof.
  intros Ha. unfold render_frame, call_.
  apply ok_bind; [now apply Hcall | intros _].
  apply ok_bind_lift; [apply Hproj |].
  intros pv Hpv. apply project_all_length in Hpv.
  apply ok_bind; [apply ok_draw_faces; auto using incl_refl | intros _].
  apply ok_bind; [now apply Hcall | intros _].
  apply ok_bind; [now apply Hcall | intros _].
  now apply Hcall.
Qed.

Lemma ok_main_loop (fuel : nat) (w h : Z) (start_time : option Z) :
  (forall a, Good a) ->
  ok P E Pr (main_loop env fuel fs letter_t w h start_time).
Proof.
  intros HG. revert start_time.
  induction fuel as [| fuel IH]; intros start_time; simpl.
  - apply ok_out_of_fuel.
  - apply ok_bind; [now apply Hcall | intros evs].
    apply ok_bind.
    { destruct start_time; [apply ok_ret | now apply Hcall]. }
    intros st.
    apply ok_bind; [now apply Hcall | intros now_].
    destruct (_ >=? _)%Z; [apply ok_ret |].
    apply ok_bind; [apply ok_render_frame; apply HG | intros _].
    destruct (handle_events evs true); [apply IH | apply ok_ret].
Qed.

End Frames.

(** ** Colours handed to the drawing primitive stay in range *)

Lemma extcall_colors (env : environment) (A : Type) (c : call)
    (value : nat -> A) :
  is_draw c = false ->
  ok entry_colors_ok (fun _ => True) (fun _ _ => False) (extcall env c value).
Proof.
  intros Hc. apply ok_extcall.
  - destruct c; simpl in *; (exact I || discriminate).
  - intros k e _. split; [exact I | left].
    destruct c; simpl in *; (exact I || discriminate).
Qed.

Lemma draw_face_colors (env : environment) (a : Z) (pv : list projected)
    (f : face) :
  channel_ok a ->
  ok entry_colors_ok (fun _ => True) (fun _ _ => False) (draw_face env a pv f).
Proof.
  intros Ha. unfold draw_face.
  apply ok_bind; [apply ok_lift; auto |].
  intros [points zs].
  destruct (_ =? 4)%nat; [| apply ok_ret].
  destruct (colors_in_range zs a Ha) as [Hfill Hout].
  apply ok_try_except with (Eb := fun _ => True) (Prb := fun _ _ => False).
  - unfold call_.
    apply ok_bind; [| intros _]; apply ok_extcall; simpl; auto.
  - intros e _ _. split; [tauto | apply ok_ret].
  - intros e _ _. split; [exact I | tauto].
Qed.

(** C8.  In a frame at [elapsed] milliseconds, 0 <= elapsed < 3000, the
    progress lies in [0, 1), and every colour that the frame hands to
    [pygame.draw.polygon], for every face table, has r, g, b and alpha
    within [0, 255]: the fill colour and the outline colour alike. *)
Theorem frame_colors_in_range (env : environment) (fs : list face)
    (letter_t : list vertex) (w h elapsed : Z) (tr : trace)
    (Hel : (0 <= elapsed < TOTAL_DURATION_MS)%Z) :
  let progress := IZR elapsed / IZR TOTAL_DURATION_MS in
  0 <= progress < 1 /\
  channel_ok (alpha progress) /\
  (forall z_values,
     color_ok (fill_color z_values (alpha progress)) /\
     color_ok (outline_color (alpha progress))) /\
  exists new,
    snd (render_frame env fs letter_t w h elapsed tr) = tr ++ new /\
    Forall entry_colors_ok new.
Proof.
  intros progress.
  assert (Hp : 0 <= progress < 1).
  { unfold progress, TOTAL_DURATION_MS in *.
    assert (H0 : 0 <= IZR elapsed) by (apply IZR_le; lia).
    assert (H1 : IZR elapsed < 3000) by (apply IZR_lt; lia).
    split; [apply Rmult_le_pos; lra | lra]. }
  pose proof (alpha_range progress Hp) as Ha.
  split; [exact Hp |]. split; [exact Ha |].
  split; [intros zs; now apply colors_in_range |].
  destruct (ok_render_frame env entry_colors_ok (fun _ => True)
              (fun _ _ => False) channel_ok fs letter_t
              (extcall_colors env) (fun _ _ _ _ _ => I)
              (fun a pv f Hgood _ _ => draw_face_colors env a pv f Hgood)
              w h elapsed Ha tr) as (new & Enew & Hpost).
  exists new. split; [exact Enew |].
  destruct (fst (render_frame env fs letter_t w h elapsed tr)) as [u | e |];
    simpl in Hpost; try exact Hpost.
  destruct Hpost as [_ Hpost].
  eapply Forall_impl; [| exact Hpost]. intros en [H | []]. exact H.
Qed.

Lemma frame_colors_in_range_witness :
  (0 <= 0 < TOTAL_DURATION_MS)%Z /\
  let progress := IZR 0 / IZR TOTAL_DURATION_MS in
  0 <= progress < 1 /\
  channel_ok (alpha progress) /\
  (forall z_values,
     color_ok (fill_color z_values (alpha progress)) /\
     color_ok (outline_color (alpha progress))) /\
  exists new,
    snd (render_frame quiet_env faces (_create_3d_letter_t 150)
           1920 1080 0 []) = [] ++ new /\
    Forall entry_colors_ok new.
Proof.
  assert (H : (0 <= 0 < TOTAL_DURATION_MS)%Z)
    by (unfold TOTAL_DURATION_MS; lia).
  split; [exact H |].
  exact (frame_colors_in_range quiet_env faces (_create_3d_letter_t 150)
           1920 1080 0 [] H).
Defined.

(** ** Index guard of the face loop *)

Lemma getitem_in_range {A : Type} (xs : list A) (i : Z) (d : A) :
  (- Z.of_nat (List.length xs) <= i < Z.of_nat (List.length xs))%Z ->
  Py.getitem xs i = Py.Ok (nth (py_position (Z.of_nat (List.length xs)) i) xs d).
Proof.
  intros Hi. unfold Py.getitem, py_position.
  set (n := Z.of_nat (List.length xs)) in *.
  set (j := if (i <? 0)%Z then (i + n)%Z else i).
  assert (Hj : (0 <= j < n)%Z).
  { unfold j. destruct (Z.ltb_spec i 0); lia. }
  destruct (Z.ltb_spec j 0); [lia |].
  destruct (Z.leb_spec n j); [lia |]. simpl.
  assert (Hlt : (Z.to_nat j < List.length xs)%nat) by (unfold n in Hj; lia).
  destruct (nth_error xs (Z.to_nat j)) as [a |] eqn:En.
  - f_equal. symmetry. now apply nth_error_nth.
  - apply nth_error_None in En. lia.
Qed.

Lemma getitem_below {A : Type} (xs : list A) (i : Z) :
  (i < - Z.of_nat (List.length xs))%Z ->
  Py.getitem xs i = Py.Raise Py.IndexError.
Proof.
  intros Hi. unfold Py.getitem.
  destruct (Z.ltb_spec i 0); [| lia].
  destruct (Z.ltb_spec (i + Z.of_nat (List.length xs)) 0); [| lia].
  reflexivity.
Qed.

Lemma gather_guarded (pv : list projected) (f : face)
    (points : list (Z * Z)) (zs : list R) :
  let n := Z.of_nat (List.length pv) in
  (forall i, In i f -> (- n <= i)%Z) ->
  gather pv f points zs =
  Py.Ok (points ++ map (fun i => point_of (nth (py_position n i) pv (0%Z, 0%Z, 0)))
                     (guarded n f),
         zs ++ map (fun i => depth_of (nth (py_position n i) pv (0%Z, 0%Z, 0)))
                 (guarded n f)).
Proof.
  intros n. revert points zs.
  induction f as [| i rest IH]; intros points zs Hlow; simpl.
  - now rewrite !app_nil_r.
  - fold n. destruct (Z.ltb_spec i n) as [Hlt | Hge].
    + rewrite (getitem_in_range pv i (0%Z, 0%Z, 0))
        by (fold n; split; [apply Hlow; now left | exact Hlt]).
      fold n.
      destruct (nth (py_position n i) pv (0%Z, 0%Z, 0)) as [[sx sy] sz] eqn:En.
      rewrite IH by (intros j Hj; apply Hlow; now right).
      simpl. rewrite <- !app_assoc. simpl.
      unfold point_of, depth_of. rewrite En. reflexivity.
    + apply IH. intros j Hj. apply Hlow. now right.
Qed.

Lemma guarded_all (n : Z) (f : face) :
  (forall i, In i f -> (i < n)%Z) -> guarded n f = f.
Proof.
  intros H. unfold guarded. induction f as [| i rest IH]; simpl; [reflexivity |].
  destruct (Z.ltb_spec i n) as [_ | Hge].
  - f_equal. apply IH. intros j Hj. apply H. now right.
  - specialize (H i (or_introl eq_refl)). lia.
Qed.

Lemma guarded_short (n : Z) (f : face) :
  (exists i, In i f /\ (n <= i)%Z) ->
  (List.length (guarded n f) < List.length f)%nat.
Proof.
  intros (i & Hi & Hge). unfold guarded.
  induction f as [| j rest IH]; simpl; [contradiction |].
  pose proof (filter_length_le (fun idx => (idx <? n)%Z) rest) as Hle.
  destruct Hi as [-> | Hi].
  - destruct (Z.ltb_spec i n); [lia | simpl; lia].
  - specialize (IH Hi). destruct (j <? n)%Z; simpl; lia.
Qed.

(** ** A face with an index that is too large *)

Lemma bind_ext {A B : Type} (m : M A) (f g : A -> M B) (tr : trace) :
  (forall a tr', f a tr' = g a tr') -> bind m f tr = bind m g tr.
Proof.
  intros H. unfold bind. destruct (m tr) as [[a | e |] tr']; auto.
Qed.

Lemma try_except_ext {A : Type} (b1 b2 : M A) (catches : Py.exn -> bool)
    (handler : Py.exn -> M A) (tr : trace) :
  b1 tr = b2 tr ->
  try_except b1 catches handler tr = try_except b2 catches handler tr.
Proof. intros H. unfold try_except. now rewrite H. Qed.

Section Skip.

Variable env : environment.
Variable n : nat.
Variable f : face.

Hypothesis Hlen : List.length f = 4%nat.
Hypothesis Hlow : forall i, In i f -> (- Z.of_nat n <= i)%Z.
Hypothesis Hbad : exists i, In i f /\ (Z.of_nat n <= i)%Z.

Lemma draw_face_skipped (a : Z) (pv : list projected) (tr : trace) :
  List.length pv = n -> draw_face env a pv f tr = (Done tt, tr).
Proof.
  intros Hn. unfold draw_face, bind, lift.
  rewrite gather_guarded by (rewrite Hn; exact Hlow).
  rewrite Hn. simpl. rewrite length_map.
  pose proof (guarded_short (Z.of_nat n) f Hbad) as Hs.
  destruct (Nat.eqb_spec (List.length (guarded (Z.of_nat n) f)) 4); [lia |].
  reflexivity.
Qed.

Lemma draw_faces_skipped (a : Z) (pv : list projected) (fs1 fs2 : list face)
    (tr : trace) :
  List.length pv = n ->
  draw_faces env a pv (fs1 ++ f :: fs2) tr = draw_faces env a pv (fs1 ++ fs2) tr.
Proof.
  intros Hn. revert tr. induction fs1 as [| g fs1 IH]; intros tr; simpl.
  - unfold bind. rewrite draw_face_skipped by exact Hn. reflexivity.
  - apply bind_ext. intros _ tr'. apply IH.
Qed.

Lemma render_frame_skipped (letter_t : list vertex) (w h elapsed : Z)
    (fs1 fs2 : list face) (tr : trace) :
  List.length letter_t = n ->
  render_frame env (fs1 ++ f :: fs2) letter_t w h elapsed tr
  = render_frame env (fs1 ++ fs2) letter_t w h elapsed tr.
Proof.
  intros Hn. unfold render_frame.
  apply bind_ext. intros _ tr1.
  unfold bind at 1 3. unfold lift.
  destruct (project_all letter_t _ w h) as [pv | e] eqn:Epv; [| reflexivity].
  apply project_all_length in Epv.
  unfold bind. rewrite draw_faces_skipped by congruence. reflexivity.
Qed.

Lemma main_loop_skipped (fuel : nat) (letter_t : list vertex) (w h : Z)
    (start_time : option Z) (fs1 fs2 : list face) (tr : trace) :
  List.length letter_t = n ->
  main_loop env fuel (fs1 ++ f :: fs2) letter_t w h start_time tr
  = main_loop env fuel (fs1 ++ fs2) letter_t w h start_time tr.
Proof.
  intros Hn. revert start_time tr.
  induction fuel as [| fuel IH]; intros start_time tr; simpl; [reflexivity |].
  apply bind_ext. intros evs tr1.
  apply bind_ext. intros st tr2.
  apply bind_ext. intros now_ tr3.
  destruct (_ >=? _)%Z; [reflexivity |].
  unfold bind. rewrite render_frame_skipped by exact Hn.
  destruct (render_frame env (fs1 ++ fs2) letter_t w h (now_ - st) tr3)
    as [[u | e |] tr4]; try reflexivity.
  destruct (handle_events evs true); [apply IH | reflexivity].
Qed.

Lemma show_splash_skipped (fuel : nat) (fs1 fs2 : list face) (tr : trace) :
  n = 16%nat ->
  show_splash_with env (fs1 ++ f :: fs2) fuel tr
  = show_splash_with env (fs1 ++ fs2) fuel tr.
Proof.
  intros Hn. unfold show_splash_with.
  apply bind_ext. intros can tr1.
  destruct (negb can); [reflexivity |].
  apply bind_ext. intros imported tr2.
  destruct (negb imported); [reflexivity |].
  apply try_except_ext. unfold animation.
  apply bind_ext. intros _ tr3.
  apply bind_ext. intros [sw sh] tr4.
  do 6 (apply bind_ext; intros _ ?).
  unfold bind. rewrite main_loop_skipped by (rewrite Hn; reflexivity).
  reflexivity.
Qed.

End Skip.

(** C7, as the code has it.  A face of four indices, one of them at least
    the vertex count and none below minus the vertex count, is skipped: no
    polygon is drawn for it, and the rest of the frame, the later frames and
    the result of the run are those of the run without that face. *)
Theorem oversized_index_face_skipped (env : environment) (n : nat) (f : face)
    (Hlen : List.length f = 4%nat)
    (Hlow : forall i, In i f -> (- Z.of_nat n <= i)%Z)
    (Hbad : exists i, In i f /\ (Z.of_nat n <= i)%Z) :
  (forall a pv tr,
     List.length pv = n -> draw_face env a pv f tr = (Done tt, tr)) /\
  (forall a pv fs1 fs2 tr,
     List.length pv = n ->
     draw_faces env a pv (fs1 ++ f :: fs2) tr
     = draw_faces env a pv (fs1 ++ fs2) tr) /\
  (n = 16%nat ->
   forall fuel fs1 fs2 tr,
     show_splash_with env (fs1 ++ f :: fs2) fuel tr
     = show_splash_with env (fs1 ++ fs2) fuel tr).
Proof.
  split; [| split].
  - intros a pv tr Hn. now apply (draw_face_skipped env n f Hlen Hlow Hbad).
  - intros a pv fs1 fs2 tr Hn.
    now apply (draw_faces_skipped env n f Hlen Hlow Hbad).
  - intros Hn fuel fs1 fs2 tr.
    now apply (show_splash_skipped env n f Hlen Hlow Hbad).
Qed.

Lemma oversized_index_face_skipped_witness :
  (forall a pv tr,
     List.length pv = 16%nat ->
     draw_face quiet_env a pv [0; 1; 2; 16]%Z tr = (Done tt, tr)) /\
  (forall a pv fs1 fs2 tr,
     List.length pv = 16%nat ->
     draw_faces quiet_env a pv (fs1 ++ [0; 1; 2; 16]%Z :: fs2) tr
     = draw_faces quiet_env a pv (fs1 ++ fs2) tr) /\
  (16%nat = 16%nat ->
   forall fuel fs1 fs2 tr,
     show_splash_with quiet_env (fs1 ++ [0; 1; 2; 16]%Z :: fs2) fuel tr
     = show_splash_with quiet_env (fs1 ++ fs2) fuel tr).
Proof.
  apply (oversized_index_face_skipped quiet_env 16 [0; 1; 2; 16]%Z).
  - reflexivity.
  - simpl. intros i H. repeat (destruct H as [<- | H]; [lia |]). contradiction.
  - exists 16%Z. simpl. split; [tauto | lia].
Defined.

Lemma gather_below (pv : list projected) (pre post : list Z) (i : Z)
    (points : list (Z * Z)) (zs : list R) :
  let n := Z.of_nat (List.length pv) in
  (forall j, In j pre -> (- n <= j)%Z) -> (i < - n)%Z ->
  gather pv (pre ++ i :: post) points zs = Py.Raise Py.IndexError.
Proof.
  intros n. revert points zs.
  induction pre as [| j pre IH]; intros points zs Hpre Hi; simpl.
  - fold n. destruct (Z.ltb_spec i n); [| lia].
    rewrite getitem_below by (fold n; lia). reflexivity.
  - fold n. destruct (Z.ltb_spec j n) as [Hlt | Hge].
    + rewrite (getitem_in_range pv j (0%Z, 0%Z, 0))
        by (fold n; split; [apply Hpre; now left | exact Hlt]).
      destruct (nth _ pv _) as [[sx sy] sz].
      apply IH; [intros k Hk; apply Hpre; now right | exact Hi].
    + apply IH; [intros k Hk; apply Hpre; now right | exact Hi].
Qed.


(** ** A face with a negative index *)

Lemma draw_face_gathered (env : environment) (a : Z) (pv : list projected)
    (f : face) (points : list (Z * Z)) (zs : list R) (tr : trace) :
  gather pv f [] [] = Py.Ok (points, zs) ->
  List.length points = 4%nat ->
  exists o rest,
    snd (draw_face env a pv f tr)
    = tr ++ (pygame_draw_polygon (fill_color zs a) points 0, o) :: rest.
Proof.
  intros Hg Hl. unfold draw_face, bind, lift. rewrite Hg, Hl. simpl.
  unfold try_except, bind, call_, extcall.
  destruct (raises env (List.length tr) _) as [e |].
  - exists (Some e), [].
    destruct (_ || _)%bool; reflexivity.
  - destruct (raises env _ _) as [e |].
    + exists None. eexists.
      destruct (_ || _)%bool; simpl; rewrite <- app_assoc; reflexivity.
    + exists None. eexists. simpl. rewrite <- app_assoc. reflexivity.
Qed.

(** C10, as the code has it.  A face of four indices, all within
    [-len, len) and some negative, passes the guard with all four indices,
    gathers four points, the negative indices selecting vertices counted
    from the end of the list, and is drawn. *)
Theorem negative_index_face_drawn (env : environment) (a : Z)
    (pv : list projected) (f : face) (tr : trace)
    (Hlen : List.length f = 4%nat)
    (Hrange : forall i, In i f ->
                (- Z.of_nat (List.length pv) <= i < Z.of_nat (List.length pv))%Z)
    (Hneg : exists i, In i f /\ (i < 0)%Z) :
  (forall i, In i f -> (i <? Z.of_nat (List.length pv))%Z = true) /\
  (forall i, In i f -> (i < 0)%Z ->
     py_position (Z.of_nat (List.length pv)) i
     = (List.length pv - Z.to_nat (- i))%nat) /\
  exists points zs,
    gather pv f [] [] = Py.Ok (points, zs) /\
    points = map (fun i => point_of
                    (nth (py_position (Z.of_nat (List.length pv)) i) pv
                       (0%Z, 0%Z, 0))) f /\
    zs = map (fun i => depth_of
                (nth (py_position (Z.of_nat (List.length pv)) i) pv
                   (0%Z, 0%Z, 0))) f /\
    List.length points = 4%nat /\
    exists o rest,
      snd (draw_face env a pv f tr)
      = tr ++ (pygame_draw_polygon (fill_color zs a) points 0, o) :: rest.
Proof.
  split; [| split].
  - intros i Hi. apply Z.ltb_lt. now apply Hrange.
  - intros i Hi Hn. unfold py_position.
    destruct (Z.ltb_spec i 0); [| lia].
    specialize (Hrange i Hi). lia.
  - pose proof (gather_guarded pv f [] []) as Hg. simpl in Hg.
    rewrite guarded_all in Hg by (intros i Hi; now apply Hrange).
    specialize (Hg (fun i Hi => proj1 (Hrange i Hi))).
    eexists. eexists. split; [exact Hg |].
    split; [reflexivity |]. split; [reflexivity |].
    assert (Hl : List.length
                   (map (fun i => point_of
                           (nth (py_position (Z.of_nat (List.length pv)) i) pv
                              (0%Z, 0%Z, 0))) f) = 4%nat)
      by (now rewrite length_map).
    split; [exact Hl |].
    now apply draw_face_gathered.
Qed.

Lemma negative_index_face_drawn_witness :
  (forall i, In i [0; 1; 2; -1]%Z ->
     (i <? Z.of_nat (List.length flat_vertices))%Z = true) /\
  (forall i, In i [0; 1; 2; -1]%Z -> (i < 0)%Z ->
     py_position (Z.of_nat (List.length flat_vertices)) i
     = (List.length flat_vertices - Z.to_nat (- i))%nat) /\
  exists points zs,
    gather flat_vertices [0; 1; 2; -1]%Z [] [] = Py.Ok (points, zs) /\
    points = map (fun i => point_of
                    (nth (py_position (Z.of_nat (List.length flat_vertices)) i)
                       flat_vertices (0%Z, 0%Z, 0))) [0; 1; 2; -1]%Z /\
    zs = map (fun i => depth_of
                (nth (py_position (Z.of_nat (List.length flat_vertices)) i)
                   flat_vertices (0%Z, 0%Z, 0))) [0; 1; 2; -1]%Z /\
    List.length points = 4%nat /\
    exists o rest,
      snd (draw_face quiet_env 255 flat_vertices [0; 1; 2; -1]%Z [])
      = [] ++ (pygame_draw_polygon (fill_color zs 255) points 0, o) :: rest.
Proof.
  apply (negative_index_face_drawn quiet_env 255 flat_vertices
           [0; 1; 2; -1]%Z []).
  - reflexivity.
  - simpl. intros i H.
    repeat (destruct H as [<- | H]; [lia |]). contradiction.
  - exists (-1)%Z. simpl. split; [tauto | lia].
Defined.

(** C10 as stated fails below the range: the four indices are all less than
    the vertex count and one is negative, yet the lookup of -17 among
    sixteen vertices raises [IndexError]: no four points, no polygon. *)
Lemma negative_index_below_range_raises :
  (forall i, In i [-17; 0; 1; 2]%Z ->
     (i < Z.of_nat (List.length flat_vertices))%Z) /\
  (exists i, In i [-17; 0; 1; 2]%Z /\ (i < 0)%Z) /\
  gather flat_vertices [-17; 0; 1; 2]%Z [] [] = Py.Raise Py.IndexError /\
  draw_face quiet_env 255 flat_vertices [-17; 0; 1; 2]%Z []
  = (Raised Py.IndexError, []).
Proof.
  split; [| split; [| split]].
  - simpl. intros i H.
    repeat (destruct H as [<- | H]; [lia |]). contradiction.
  - exists (-17)%Z. simpl. split; [tauto | lia].
  - reflexivity.
  - reflexivity.
Qed.

(** ** The boundary of [show_splash] *)






Lemma on_error_run (env : environment) (e : Py.exn) (tr : trace) :
  exists o,
    on_error env e tr
    = (Done false,
       tr ++ [ (logger_warning "Error showing splash" (Some e), None);
               (pygame_quit, o) ]).
Proof.
  unfold on_error, try_except, bind, call_, extcall, log, ret.
  destruct (raises env _ _) as [e' |]; eexists;
    rewrite <- app_assoc; reflexivity.
Qed.

Lemma returns_ret {A : Type} (v : A) : returns v (ret v).
Proof. intros tr a tr' [= <- _]. reflexivity. Qed.

Lemma returns_bind {A B : Type} (v : B) (m : M A) (f : A -> M B) :
  (forall a, returns v (f a)) -> returns v (bind m f).
Proof.
  intros H tr b tr'. unfold bind.
  destruct (m tr) as [[a | e |] tr1]; try discriminate. apply H.
Qed.

Lemma animation_returns_true (env : environment) (fs : list face)
    (fuel : nat) :
  returns true (animation env fs fuel).
Proof.
  unfold animation.
  apply returns_bind; intros _.
  apply returns_bind; intros [sw sh].
  do 8 (apply returns_bind; intros _).
  apply returns_ret.
Qed.

Section Boundary.

Variable env : environment.

Let E (e : Py.exn) : Prop := True.
Let Pr (e : Py.exn) (en : entry) : Prop := True.




End Boundary.














(** ** Runs that return *)

Lemma ok_extends {A : Type} (m : M A) :
  ok (fun _ => True) (fun _ => True) (fun _ _ => True) m -> extends m.
Proof. intros H tr. destruct (H tr) as (new & Hn & _). now exists new. Qed.

Lemma finishes_ret {A : Type} (a : A) : finishes (ret a).
Proof. intros tr. discriminate. Qed.

Lemma finishes_lift {A : Type} (r : Py.result A) : finishes (lift r).
Proof. intros tr. unfold lift. destruct r; discriminate. Qed.

Lemma finishes_log (c : call) : finishes (log c).
Proof. intros tr. discriminate. Qed.

Lemma finishes_extcall (env : environment) {A : Type} (c : call)
    (value : nat -> A) :
  finishes (extcall env c value).
Proof.
  intros tr. unfold extcall. destruct (raises env _ c); discriminate.
Qed.

Lemma finishes_bind {A B : Type} (m : M A) (f : A -> M B) :
  finishes m -> (forall a, finishes (f a)) -> finishes (bind m f).
Proof.
  intros Hm Hf tr. unfold bind. specialize (Hm tr).
  destruct (m tr) as [[a | e |] tr']; simpl in *;
    [apply Hf | discriminate | contradiction].
Qed.

Lemma finishes_try_except {A : Type} (body : M A) (catches : Py.exn -> bool)
    (handler : Py.exn -> M A) :
  finishes body -> (forall e, finishes (handler e)) ->
  finishes (try_except body catches handler).
Proof.
  intros Hb Hh tr. unfold try_except. specialize (Hb tr).
  destruct (body tr) as [[a | e |] tr']; simpl in *;
    [discriminate | | contradiction].
  destruct (catches e); [apply Hh | discriminate].
Qed.

Section Returns.

Variable env : environment.

Lemma finishes_draw_faces (a : Z) (pv : list projected) (fs : list face) :
  finishes (draw_faces env a pv fs).
Proof.
  induction fs as [| f rest IH]; simpl; [apply finishes_ret |].
  apply finishes_bind; [| intros _; exact IH].
  unfold draw_face. apply finishes_bind; [apply finishes_lift |].
  intros [points zs]. destruct (_ =? 4)%nat; [| apply finishes_ret].
  apply finishes_try_except; [| intros _; apply finishes_ret].
  unfold call_.
  apply finishes_bind; [| intros _]; apply finishes_extcall.
Qed.

Lemma finishes_render_frame (fs : list face) (letter_t : list vertex)
    (w h elapsed : Z) :
  finishes (render_frame env fs letter_t w h elapsed).
Proof.
  unfold render_frame, call_.
  apply finishes_bind; [apply finishes_extcall | intros _].
  apply finishes_bind; [apply finishes_lift | intros pv].
  apply finishes_bind; [apply finishes_draw_faces | intros _].
  apply finishes_bind; [apply finishes_extcall | intros _].
  apply finishes_bind; [apply finishes_extcall | intros _].
  apply finishes_extcall.
Qed.

Lemma extends_render_frame (fs : list face) (letter_t : list vertex)
    (w h elapsed : Z) :
  extends (render_frame env fs letter_t w h elapsed).
Proof.
  apply ok_extends.
  apply (ok_render_frame env _ _ _ (fun _ => True)); try exact I.
  - intros A c value _. apply ok_extcall; auto.
  - intros; exact I.
  - intros a pv f _ _ _. unfold draw_face.
    apply ok_bind; [apply ok_lift; auto |].
    intros [points zs]. destruct (_ =? 4)%nat; [| apply ok_ret].
    apply ok_try_except with (Eb := fun _ => True) (Prb := fun _ _ => True).
    + unfold call_.
      apply ok_bind; [| intros _]; apply ok_extcall; auto.
    + intros e _ _. split; [auto | apply ok_ret].
    + intros e _ _. auto.
Qed.

Lemma main_loop_started_finishes (fs : list face) (letter_t : list vertex)
    (w h : Z) (j D : nat) (fuel : nat) (tr : trace) :
  (forall k, (D <= k)%nat ->
     (ticks env j + TOTAL_DURATION_MS <= ticks env k)%Z) ->
  (0 < fuel)%nat -> (D <= List.length tr + fuel)%nat ->
  fst (main_loop env fuel fs letter_t w h (Some (ticks env j)) tr)
  <> Unfinished.
Proof.
  intros Hclock. revert tr.
  induction fuel as [| fuel IH]; intros tr Hpos Hfuel; [lia |].
  simpl. unfold bind at 1. unfold extcall at 1.
  destruct (raises env (List.length tr) pygame_event_get);
    [discriminate |].
  unfold bind at 1. unfold ret at 1.
  unfold bind at 1. unfold extcall at 1.
  rewrite length_app. simpl List.length.
  destruct (raises env (List.length tr + 1) pygame_time_get_ticks);
    [discriminate |].
  destruct (Z.geb_spec (ticks env (List.length tr + 1) - ticks env j)
              TOTAL_DURATION_MS) as [Hge | Hlt]; [discriminate |].
  assert (HD : (List.length tr + 1 < D)%nat).
  { destruct (le_lt_dec D (List.length tr + 1)) as [Hle | Hgt]; [| exact Hgt].
    specialize (Hclock _ Hle). lia. }
  unfold bind at 1.
  pose proof (finishes_render_frame fs letter_t w h
                (ticks env (List.length tr + 1) - ticks env j)
                ((tr ++ [(pygame_event_get, None)])
                   ++ [(pygame_time_get_ticks, None)])) as Hfin.
  destruct (extends_render_frame fs letter_t w h
              (ticks env (List.length tr + 1) - ticks env j)
              ((tr ++ [(pygame_event_get, None)])
                 ++ [(pygame_time_get_ticks, None)])) as (new & Hnew).
  destruct (render_frame env fs letter_t w h _ _) as [[u | e |] tr'];
    simpl in Hfin, Hnew; [| discriminate | contradiction].
  destruct (handle_events _ true); [| discriminate].
  apply IH; [lia |].
  subst tr'. rewrite !length_app. simpl. lia.
Qed.

Lemma main_loop_finishes (fs : list face) (letter_t : list vertex)
    (w h : Z) (N fuel : nat) :
  clock_advances env N -> (N <= fuel)%nat ->
  finishes (main_loop env fuel fs letter_t w h None).
Proof.
  intros Hclock HN tr.
  destruct fuel as [| fuel].
  { exfalso. assert (N = 0%nat) by lia. subst N.
    specialize (Hclock 0%nat 0%nat (le_n _)).
    unfold TOTAL_DURATION_MS in Hclock. lia. }
  simpl. unfold bind at 1. unfold extcall at 1.
  destruct (raises env (List.length tr) pygame_event_get);
    [discriminate |].
  unfold bind at 1. unfold extcall at 1.
  rewrite length_app. simpl List.length.
  destruct (raises env (List.length tr + 1) pygame_time_get_ticks);
    [discriminate |].
  unfold bind at 1. unfold extcall at 1.
  rewrite !length_app. simpl List.length.
  destruct (raises env (List.length tr + 1 + 1) pygame_time_get_ticks);
    [discriminate |].
  destruct (Z.geb_spec (ticks env (List.length tr + 1 + 1)
                        - ticks env (List.length tr + 1))
              TOTAL_DURATION_MS) as [Hge | Hlt]; [discriminate |].
  assert (HN2 : (2 <= N)%nat).
  { destruct (le_lt_dec N 1) as [Hle | Hgt]; [| lia].
    specialize (Hclock (List.length tr + 1)%nat (List.length tr + 1 + 1)%nat
                  ltac:(lia)). lia. }
  unfold bind at 1.
  match goal with
  | |- context [render_frame env fs letter_t w h ?el ?t] =>
      pose proof (finishes_render_frame fs letter_t w h el t) as Hfin;
      destruct (extends_render_frame fs letter_t w h el t) as (new & Hnew);
      destruct (render_frame env fs letter_t w h el t) as [[u | e |] tr']
  end; simpl in Hfin, Hnew; [| discriminate | contradiction].
  destruct (handle_events _ true); [| discriminate].
  apply (main_loop_started_finishes fs letter_t w h (List.length tr + 1)
           (List.length tr + 1 + N)).
  - intros k Hk. apply Hclock. exact Hk.
  - lia.
  - subst tr'. rewrite !length_app. simpl. lia.
Qed.

Lemma show_splash_returns (fs : list face) (N fuel : nat) :
  clock_advances env N -> (N <= fuel)%nat ->
  finishes (show_splash_with env fs fuel).
Proof.
  intros Hclock HN. unfold show_splash_with.
  apply finishes_bind.
  { unfold _can_show_splash.
    repeat match goal with
           | |- finishes (if ?b then _ else _) => destruct b
           | |- finishes (let _ := _ in _) => cbv zeta
           end;
      repeat first
        [ apply finishes_ret
        | apply finishes_log
        | apply finishes_extcall
        | apply finishes_try_except
        | apply finishes_bind
        | intro ]. }
  intros can. destruct (negb can); [apply finishes_ret |].
  apply finishes_bind.
  { unfold import_modules, call_.
    repeat first
      [ apply finishes_ret
      | apply finishes_log
      | apply finishes_extcall
      | apply finishes_try_except
      | apply finishes_bind
      | intro ]. }
  intros imported. destruct (negb imported); [apply finishes_ret |].
  apply finishes_try_except.
  - unfold animation, call_.
    apply finishes_bind; [apply finishes_extcall | intros _].
    apply finishes_bind; [apply finishes_extcall | intros [sw sh]].
    do 6 (apply finishes_bind; [apply finishes_extcall | intros _]).
    apply finishes_bind;
      [now apply (main_loop_finishes _ _ _ _ N) | intros _].
    apply finishes_bind; [apply finishes_extcall | intros _].
    apply finishes_ret.
  - intros e. unfold on_error, call_.
    repeat first
      [ apply finishes_ret
      | apply finishes_log
      | apply finishes_extcall
      | apply finishes_try_except
      | apply finishes_bind
      | intro ].
Qed.

End Returns.

(** ** Concrete runs *)


(** Without a display the probe logs and nothing else is called. *)
Lemma headless_run (fuel : nat) :
  show_splash headless_env fuel []
  = (Done false,
     [ (logger_debug "DISPLAY is not set, skipping splash" None, None) ]).
Proof. reflexivity. Qed.

(** A failure in the setup: logged, [pygame.quit()] called, false returned. *)
Lemma display_error_run (fuel : nat) :
  show_splash display_error_env fuel []
  = (Done false,
     imported_trace ++
     [ (pygame_init, None);
       (pygame_display_Info, None);
       (pygame_display_set_mode 1920 1080, Some Py.RuntimeError);
       (logger_warning "Error showing splash" (Some Py.RuntimeError), None);
       (pygame_quit, None) ]).
Proof. reflexivity. Qed.


(** An interrupt in the [pygame.quit()] of line 283, inside the outer
    [try], is not an [Exception] either: it leaves [show_splash]. *)
Lemma teardown_interrupted_run :
  show_splash teardown_interrupted_env 1 []
  = (Raised Py.KeyboardInterrupt,
     imported_trace ++
     [ (pygame_init, None);
       (pygame_display_Info, None);
       (pygame_display_set_mode 1920 1080, None);
       (pygame_display_set_caption "Tayfa Loading...", None);
       (screen_fill, None);
       (screen_set_colorkey, None);
       (pygame_time_Clock, None);
       (pygame_Surface 1920 1080, None);
       (pygame_event_get, None);
       (pygame_time_get_ticks, None);
       (pygame_time_get_ticks, None);
       (pygame_quit, Some Py.KeyboardInterrupt) ]).
Proof. reflexivity. Qed.


(** ** Runs in which every call returns *)

Lemma bind_done {A B : Type} (m : M A) (f : A -> M B) (tr tr' : trace)
    (a : A) :
  m tr = (Done a, tr') -> bind m f tr = f a tr'.
Proof. intros H. unfold bind. now rewrite H. Qed.

Lemma bind_raised {A B : Type} (m : M A) (f : A -> M B) (tr tr' : trace)
    (e : Py.exn) :
  m tr = (Raised e, tr') -> bind m f tr = (Raised e, tr').
Proof. intros H. unfold bind. now rewrite H. Qed.

Lemma bind_bind {A B C : Type} (m : M A) (f : A -> M B) (g : B -> M C)
    (tr : trace) :
  bind (bind m f) g tr = bind m (fun a => bind (f a) g) tr.
Proof. unfold bind. destruct (m tr) as [[a | e |] tr']; reflexivity. Qed.

Section Quiet.

Variable env : environment.

Hypothesis Hquiet : forall k c, raises env k c = None.
Hypothesis Hlinux : sys_platform_linux env = false.

Lemma extcall_returns {A : Type} (c : call) (value : nat -> A) (tr : trace) :
  extcall env c value tr
  = (Done (value (List.length tr)), tr ++ [(c, None)]).
Proof. unfold extcall. now rewrite Hquiet. Qed.

Lemma probe_returns : _can_show_splash env [] = (Done true, probe_trace).
Proof.
  unfold _can_show_splash. rewrite Hlinux.
  unfold try_except, call_.
  repeat (erewrite bind_done by apply extcall_returns). reflexivity.
Qed.

Lemma imports_return :
  import_modules env probe_trace = (Done true, imported_trace).
Proof.
  unfold import_modules, try_except, call_.
  repeat (erewrite bind_done by apply extcall_returns). reflexivity.
Qed.

Let returned (en : entry) : Prop := snd en = None.
Let never (e : Py.exn) : Prop := False.
Let nowhere (e : Py.exn) (en : entry) : Prop := False.

Lemma extcall_returned (A : Type) (c : call) (value : nat -> A) :
  ok returned never nowhere (extcall env c value).
Proof.
  apply ok_extcall; [reflexivity |].
  intros k e He. rewrite Hquiet in He. discriminate.
Qed.

Lemma draw_face_returned (a : Z) (pv : list projected) (f : face) :
  List.length pv = 16%nat -> In f faces ->
  ok returned never nowhere (draw_face env a pv f).
Proof.
  intros Hl Hf. unfold draw_face.
  assert (Hlow : forall i, In i f -> (- Z.of_nat (List.length pv) <= i)%Z).
  { destruct faces_shape as [_ Hall]. rewrite Forall_forall in Hall.
    destruct (Hall f Hf) as [_ Hi]. rewrite Forall_forall in Hi.
    intros i Hin. specialize (Hi i Hin). lia. }
  apply ok_bind_lift.
  { intros e He. rewrite gather_guarded in He by exact Hlow. discriminate. }
  intros [points zs] _.
  destruct (_ =? 4)%nat; [| apply ok_ret].
  apply ok_try_except with (Eb := never) (Prb := nowhere).
  - unfold call_.
    apply ok_bind; [| intros _]; apply extcall_returned.
  - intros e [].
  - intros e [].
Qed.

Lemma animation_returned (fuel : nat) :
  ok returned never nowhere (animation env faces fuel).
Proof.
  unfold animation, call_.
  apply ok_bind; [apply extcall_returned | intros _].
  apply ok_bind; [apply extcall_returned | intros [sw sh]].
  do 6 (apply ok_bind; [apply extcall_returned | intros _]).
  apply ok_bind.
  { apply (ok_main_loop env returned never nowhere (fun _ => True)).
    - intros A c value _. apply extcall_returned.
    - intros theta w h e He.
      destruct (project_all_letter_t theta w h) as (ps & Eps & _).
      rewrite Eps in He. discriminate.
    - intros a pv f _ Hl Hf. now apply draw_face_returned.
    - auto. }
  intros _.
  apply ok_bind; [apply extcall_returned | intros _].
  apply ok_ret.
Qed.

(** With no failing call and a clock that advances, the run returns true. *)
Lemma quiet_run_returns_true (N fuel : nat) :
  clock_advances env N -> (N <= fuel)%nat ->
  exists tr,
    show_splash env fuel [] = (Done true, tr) /\
    Forall (fun en => snd en = None) tr.
Proof.
  intros Hclock HN. unfold show_splash, show_splash_with.
  rewrite (bind_done _ _ _ _ _ probe_returns). cbn [negb].
  rewrite (bind_done _ _ _ _ _ imports_return). cbn [negb].
  unfold try_except.
  destruct (animation_returned fuel imported_trace) as (new & Enew & Hpost).
  pose proof (animation_returns_true env faces fuel imported_trace) as Hret.
  assert (Hfin : fst (animation env faces fuel imported_trace) <> Unfinished).
  { unfold animation, call_.
    apply finishes_bind; [apply finishes_extcall | intros _].
    apply finishes_bind; [apply finishes_extcall | intros [sw sh]].
    do 6 (apply finishes_bind; [apply finishes_extcall | intros _]).
    apply finishes_bind;
      [now apply (main_loop_finishes env _ _ _ _ N) | intros _].
    apply finishes_bind; [apply finishes_extcall | intros _].
    apply finishes_ret. }
  destruct (animation env faces fuel imported_trace) as [[b | e |] tr'];
    cbn [fst snd] in Enew, Hpost, Hfin.
  - rewrite (Hret b _ eq_refl). exists tr'. split; [reflexivity |].
    subst tr'. apply Forall_app. split; [| exact Hpost].
    repeat constructor.
  - destruct Hpost as [[] _].
  - contradiction.
Qed.

Section Undersized.

Variable pre post : list Z.
Variable i : Z.
Variable rest : list face.

Hypothesis Hpre : forall j, In j pre -> (- 16 <= j)%Z.
Hypothesis Hi : (i < - 16)%Z.

Lemma undersized_frame (w h elapsed : Z) (tr : trace) :
  render_frame env ((pre ++ i :: post) :: rest) (_create_3d_letter_t 150)
    w h elapsed tr
  = (Raised Py.IndexError, tr ++ [(render_surface_fill, None)]).
Proof.
  unfold render_frame, call_.
  erewrite bind_done by apply extcall_returns.
  destruct (project_all_letter_t
              (IZR elapsed / IZR TOTAL_DURATION_MS * PI * 4) w h)
    as (ps & Eps & Hps).
  rewrite Eps. erewrite bind_done by reflexivity.
  cbn [draw_faces]. rewrite !bind_bind. unfold draw_face at 1.
  rewrite bind_bind.
  rewrite gather_below by (rewrite Hps; assumption).
  reflexivity.
Qed.

Lemma undersized_loop (fuel : nat) (w h : Z) (tr : trace) :
  (ticks env (List.length tr + 2) - ticks env (List.length tr + 1)
   < TOTAL_DURATION_MS)%Z ->
  main_loop env (S fuel) ((pre ++ i :: post) :: rest)
    (_create_3d_letter_t 150) w h None tr
  = (Raised Py.IndexError,
     tr ++ [ (pygame_event_get, None); (pygame_time_get_ticks, None);
             (pygame_time_get_ticks, None); (render_surface_fill, None) ]).
Proof.
  intros Hclock. cbn [main_loop].
  erewrite bind_done by apply extcall_returns.
  erewrite bind_done by apply extcall_returns.
  erewrite bind_done by apply extcall_returns.
  rewrite !length_app. cbn [List.length].
  replace (List.length tr + 1 + 1)%nat with (List.length tr + 2)%nat by lia.
  destruct (Z.geb_spec
              (ticks env (List.length tr + 2) - ticks env (List.length tr + 1))
              TOTAL_DURATION_MS) as [Hge | _]; [lia |].
  erewrite bind_raised by apply undersized_frame.
  rewrite <- !app_assoc. reflexivity.
Qed.

(** The first frame raises [IndexError]; the outer handler ends the run. *)
Lemma undersized_index_aborts (fuel : nat) :
  (ticks env 15 - ticks env 14 < TOTAL_DURATION_MS)%Z ->
  exists o,
    show_splash_with env ((pre ++ i :: post) :: rest) (S fuel) []
    = (Done false,
       imported_trace ++
       [ (pygame_init, None); (pygame_display_Info, None);
         (pygame_display_set_mode (current_w env) (current_h env), None);
         (pygame_display_set_caption "Tayfa Loading...", None);
         (screen_fill, None); (screen_set_colorkey, None);
         (pygame_time_Clock, None);
         (pygame_Surface (current_w env) (current_h env), None);
         (pygame_event_get, None); (pygame_time_get_ticks, None);
         (pygame_time_get_ticks, None); (render_surface_fill, None);
         (logger_warning "Error showing splash" (Some Py.IndexError), None);
         (pygame_quit, o) ]).
Proof.
  intros Hclock.
  unfold show_splash_with.
  rewrite (bind_done _ _ _ _ _ probe_returns). cbn [negb].
  rewrite (bind_done _ _ _ _ _ imports_return). cbn [negb].
  unfold try_except, animation, call_.
  repeat (erewrite bind_done by apply extcall_returns).
  cbv beta iota zeta.
  repeat (erewrite bind_done by apply extcall_returns).
  erewrite bind_raised by (apply undersized_loop; exact Hclock).
  cbn [Py.is_Exception].
  match goal with
  | |- context [on_error env ?e ?t] =>
      destruct (on_error_run env e t) as [o Ho]; rewrite Ho
  end.
  exists o. rewrite <- !app_assoc. reflexivity.
Qed.

End Undersized.

End Quiet.

Lemma quiet_env_clock : clock_advances quiet_env 188.
Proof.
  intros j k Hjk. unfold quiet_env, TOTAL_DURATION_MS. simpl. lia.
Qed.

(** At sixteen milliseconds a call the animation runs to its end. *)
Lemma quiet_env_run : fst (show_splash quiet_env 188 []) = Done true.
Proof.
  destruct (quiet_run_returns_true quiet_env (fun _ _ => eq_refl) eq_refl
              188 188 quiet_env_clock (le_n _)) as (tr & Hrun & _).
  now rewrite Hrun.
Qed.

(** ** A face with an index below the range *)

(** C7 as stated fails below the range: with sixteen vertices the index -17
    is out of range, yet the face is not skipped.  The lookup raises
    [IndexError] outside the handler of the face: the faces after it are
    not processed, and the run ends in its first frame, returning false
    without a single polygon drawn. *)
Lemma undersized_index_aborts_frame :
  draw_faces quiet_env 255 flat_vertices [[0; 1; 2; -17]; [0; 1; 2; 3]]%Z []
  = (Raised Py.IndexError, []) /\
  (exists new,
     draw_faces quiet_env 255 flat_vertices [[0; 1; 2; 3]]%Z []
     = (Done tt, new) /\ List.length new = 2%nat) /\
  exists tr,
    show_splash_with quiet_env [[0; 1; 2; -17]; [0; 1; 2; 3]]%Z 188 []
    = (Done false, tr) /\
    List.length tr = 19%nat /\
    Forall (fun en => is_draw (fst en) = false) tr.
Proof.
  split; [reflexivity |].
  split; [eexists; split; reflexivity |].
  destruct (undersized_index_aborts quiet_env (fun _ _ => eq_refl) eq_refl
              [0; 1; 2]%Z [] (-17)%Z [[0; 1; 2; 3]%Z]) with (fuel := 187%nat)
    as [o Hrun].
  - simpl. intros j H.
    repeat (destruct H as [<- | H]; [lia |]). contradiction.
  - lia.
  - unfold TOTAL_DURATION_MS. simpl. lia.
  - eexists. split; [exact Hrun |].
    split; [reflexivity |]. repeat constructor.
Qed.

(** ** The shading and the screen centre on binary64 floats *)

(** The real-number opacity at a whole millisecond. *)
Lemma alpha_at_millisecond (elapsed : Z) :
  (0 <= elapsed < TOTAL_DURATION_MS)%Z ->
  alpha (IZR elapsed / IZR TOTAL_DURATION_MS) = alpha_ms elapsed.
Proof.
  unfold TOTAL_DURATION_MS. intros Hel. unfold alpha, alpha_ms.
  assert (H0 : 0 <= IZR elapsed) by (apply IZR_le; lia).
  destruct (Z.ltb_spec elapsed 600) as [Hlt | Hge].
  - assert (H1 : IZR elapsed < 600) by (apply IZR_lt; lia).
    destruct (Rlt_dec (IZR elapsed / 3000) 0.2) as [_ | Hn]; [| lra].
    rewrite <- (int_div (255 * elapsed) 600) by lia.
    f_equal. rewrite mult_IZR. lra.
  - assert (H1 : 600 <= IZR elapsed) by (apply IZR_le; lia).
    destruct (Rlt_dec (IZR elapsed / 3000) 0.2) as [Hy | _]; [lra |].
    destruct (Z.ltb_spec 2400 elapsed) as [Hgt | Hle].
    + assert (H2 : 2400 < IZR elapsed) by (apply IZR_lt; lia).
      assert (H3 : IZR elapsed < 3000) by (apply IZR_lt; lia).
      destruct (Rgt_dec (IZR elapsed / 3000) 0.8) as [_ | Hn]; [| lra].
      rewrite <- (int_div (255 * (3000 - elapsed)) 600) by lia.
      f_equal. rewrite mult_IZR, minus_IZR. lra.
    + assert (H2 : IZR elapsed <= 2400) by (apply IZR_le; lia).
      destruct (Rgt_dec (IZR elapsed / 3000) 0.8) as [Hy | _]; [lra |].
      reflexivity.
Qed.


Module Binary64Facts.

Import PrimFloat.

Lemma alpha_binary64_points :
  Binary64.alpha 0%float = Some 0%Z /\
  Binary64.alpha 0.2%float = Some 255%Z /\
  Binary64.alpha 0.5%float = Some 255%Z /\
  Binary64.alpha 0.8%float = Some 255%Z /\
  Binary64.alpha 1%float = Some 0%Z /\
  Binary64.alpha (Binary64.progress 600) = Some 255%Z /\
  Binary64.alpha (Binary64.progress 2400) = Some 255%Z.
Proof. vm_compute. repeat split. Qed.

(** At every millisecond of the animation the opacity is within [0, 255]. *)
Lemma alpha_binary64_range :
  forallb (fun elapsed => Binary64.channel_okb
                            (Binary64.alpha (Binary64.progress elapsed)))
    (map Z.of_nat (seq 0 3000)) = true.
Proof. vm_compute. reflexivity. Qed.

(** At every millisecond the float opacity is within one unit of the
    real-number opacity; they differ at four of the 3000 milliseconds, where
    the real value is a whole number and the float falls just below it. *)
Lemma alpha_binary64_close :
  forallb (fun elapsed => Binary64.within_one
                            (Binary64.alpha (Binary64.progress elapsed))
                            (alpha_ms elapsed))
    (map Z.of_nat (seq 0 3000)) = true /\
  filter (fun elapsed =>
            match Binary64.alpha (Binary64.progress elapsed) with
            | Some a => negb (a =? alpha_ms elapsed)%Z
            | None => true
            end)
    (map Z.of_nat (seq 0 3000)) = [120; 240; 480; 2920]%Z.
Proof. vm_compute. split; reflexivity. Qed.

(** The gradient at its three endpoints, on floats. *)
Lemma gradient_binary64_points :
  Binary64.gradient
    (Binary64.color_progress
       (Binary64.avg_z [-150; -150; -150; -150]%float))
  = Some (0, 255, 255)%Z /\
  Binary64.gradient
    (Binary64.color_progress (Binary64.avg_z [0; 0; 0; 0]%float))
  = Some (100, 100, 255)%Z /\
  Binary64.gradient
    (Binary64.color_progress (Binary64.avg_z [150; 150; 150; 150]%float))
  = Some (255, 0, 150)%Z.
Proof. vm_compute. repeat split. Qed.


(** At every whole depth from -150 to 150 each channel of the float
    gradient is within one unit of the exact one; they differ at ten of
    the 301 depths, where the exact value is a whole number and the float
    falls just below it. *)
Lemma gradient_binary64_close :
  forallb (fun d =>
             Binary64.rgb_within_one
               (Binary64.gradient
                  (Binary64.color_progress
                     (Binary64.avg_z (repeat (Binary64.of_int d) 4))))
               (gradient_depth d))
    (map (fun n => (Z.of_nat n - 150)%Z) (seq 0 301)) = true /\
  filter (fun d =>
            match Binary64.gradient
                    (Binary64.color_progress
                       (Binary64.avg_z (repeat (Binary64.of_int d) 4))),
                  gradient_depth d with
            | Some (r, g, b), (r', g', b') =>
                negb ((r =? r') && (g =? g') && (b =? b'))%Z
            | None, _ => true
            end)
    (map (fun n => (Z.of_nat n - 150)%Z) (seq 0 301))
  = [-63; 15; 18; 54; 84; 87; 90; 93; 126; 129]%Z.
Proof. vm_compute. split; reflexivity. Qed.

(** The origin on floats, with the default distance: for every extent
    from 1 to 8192, and for 2^53, the screen coordinate is the extent
    halved and truncated; for the odd extent 2^53 + 3 it is not, the
    quotient being rounded to an even float. *)
Lemma project_origin_binary64 :
  forallb (fun extent =>
             match Binary64.screen_x extent 0 0 500,
                   Binary64.screen_y extent 0 0 500 with
             | Some sx, Some sy => ((sx =? extent / 2) && (sy =? extent / 2))%Z
             | _, _ => false
             end)
    (map Z.of_nat (seq 1 (Z.to_nat 8192))) = true /\
  Binary64.screen_x (2 ^ 53) 0 0 500 = Some (2 ^ 52)%Z /\
  Binary64.screen_x (2 ^ 53 + 3) 0 0 500 = Some 4503599627370498%Z /\
  ((2 ^ 53 + 3) / 2 = 4503599627370497)%Z.
Proof. vm_compute. repeat split. Qed.

End Binary64Facts.

(** * Further properties of the module *)

(** ** Truncation *)

Lemma int_spec (x : R) :
  (0 <= x -> IZR (Py.int x) <= x < IZR (Py.int x) + 1) /\
  (x < 0 -> IZR (Py.int x) - 1 < x <= IZR (Py.int x)).
Proof.
  unfold Py.int. destruct (Rle_dec 0 x) as [Hx | Hx].
  - split; [intros _ | lra].
    destruct (base_Int_part x). lra.
  - split; [lra | intros _].
    destruct (base_Int_part (- x)). rewrite opp_IZR. lra.
Qed.

Lemma int_monotone (x y : R) : x <= y -> (Py.int x <= Py.int y)%Z.
Proof.
  intros Hxy.
  destruct (int_spec x) as [Hx0 Hx1], (int_spec y) as [Hy0 Hy1].
  assert (H : (Py.int x < Py.int y + 1)%Z); [| lia].
  apply lt_IZR. rewrite plus_IZR.
  destruct (Rle_dec 0 x) as [Px | Nx], (Rle_dec 0 y) as [Py | Ny].
  - specialize (Hx0 Px). specialize (Hy0 Py). lra.
  - lra.
  - assert (Nx' : x < 0) by lra.
    specialize (Hx1 Nx'). specialize (Hy0 Py).
    assert (H0 : (Py.int x < 1)%Z) by (apply lt_IZR; lra).
    assert (H1 : (-1 < Py.int y)%Z) by (apply lt_IZR; lra).
    apply IZR_lt in H0. apply IZR_lt in H1.
    assert (H2 : (Py.int x <= 0)%Z) by (apply le_IZR; apply lt_IZR in H0; apply IZR_le; lia).
    assert (H3 : (0 <= Py.int y)%Z) by (apply lt_IZR in H1; lia).
    apply IZR_le in H2. apply IZR_le in H3. lra.
  - assert (Nx' : x < 0) by lra. assert (Ny' : y < 0) by lra.
    specialize (Hx1 Nx'). specialize (Hy1 Ny'). lra.
Qed.

Lemma int_between (x : R) (a b : Z) :
  IZR a <= x <= IZR b -> (a <= Py.int x <= b)%Z.
Proof.
  intros [Ha Hb].
  pose proof (int_monotone _ _ Ha) as H1.
  pose proof (int_monotone _ _ Hb) as H2.
  assert (Ea : Py.int (IZR a) = a).
  { destruct (int_spec (IZR a)) as [P N].
    destruct (Rle_dec 0 (IZR a)) as [H | H].
    - specialize (P H). destruct P as [P1 P2].
      apply le_IZR in P1. rewrite <- plus_IZR in P2. apply lt_IZR in P2. lia.
    - assert (H' : IZR a < 0) by lra. specialize (N H').
      destruct N as [N1 N2]. apply le_IZR in N2.
      rewrite <- minus_IZR in N1. apply lt_IZR in N1. lia. }
  assert (Eb : Py.int (IZR b) = b).
  { destruct (int_spec (IZR b)) as [P N].
    destruct (Rle_dec 0 (IZR b)) as [H | H].
    - specialize (P H). destruct P as [P1 P2].
      apply le_IZR in P1. rewrite <- plus_IZR in P2. apply lt_IZR in P2. lia.
    - assert (H' : IZR b < 0) by lra. specialize (N H').
      destruct N as [N1 N2]. apply le_IZR in N2.
      rewrite <- minus_IZR in N1. apply lt_IZR in N1. lia. }
  lia.
Qed.

Lemma int_negative (x : R) : x <= -1 -> (Py.int x < 0)%Z.
Proof.
  intros Hx. pose proof (int_monotone x (-1) Hx) as H.
  pose proof (int_between (-1) (-1) (-1) ltac:(lra)) as H1. lia.
Qed.

Lemma int_nonnegative (x : R) : -1 < x -> (0 <= Py.int x)%Z.
Proof.
  intros Hx. destruct (int_spec x) as [P N].
  destruct (Rle_dec 0 x) as [H | H].
  - specialize (P H). assert (H1 : (-1 < Py.int x)%Z) by (apply lt_IZR; lra).
    lia.
  - assert (H' : x < 0) by lra. specialize (N H').
    assert (H1 : (-1 < Py.int x)%Z) by (apply lt_IZR; lra). lia.
Qed.

(** ** Opacity outside the animation's progress *)

(** X1.  The opacity is not clamped: it is within [0, 255] exactly for a
    progress strictly between -1/1275 and 1 + 1/1275; further out, on either
    side, it is negative. *)
Theorem alpha_channel_iff (p : R) :
  (channel_ok (alpha p) <-> -1 / 1275 < p < 1 + 1 / 1275) /\
  (p <= -1 / 1275 -> (alpha p < 0)%Z) /\
  (1 + 1 / 1275 <= p -> (alpha p < 0)%Z).
Proof.
  unfold channel_ok, alpha.
  destruct (Rlt_dec p 0.2) as [Hlt | Hge].
  - set (x := 255 * (p / 0.2)).
    assert (Ex : x = 1275 * p) by (unfold x; lra).
    split; [split |].
    + intros [H0 _]. split; [| lra].
      destruct (Rle_dec x (-1)) as [Hle | Hgt]; [| lra].
      pose proof (int_negative x Hle). lia.
    + intros [Hlo _]. split; [apply int_nonnegative; lra |].
      apply (int_between x (-1) 255). lra.
    + split; [| intros H; lra].
      intros H. apply int_negative. lra.
  - destruct (Rgt_dec p 0.8) as [Hgt | Hle].
    + set (x := 255 * (1.0 - (p - 0.8) / 0.2)).
      assert (Ex : x = 1275 * (1 - p)) by (unfold x; lra).
      split; [split |].
      * intros [H0 _]. split; [lra |].
        destruct (Rle_dec x (-1)) as [Hle | Hgt']; [| lra].
        pose proof (int_negative x Hle). lia.
      * intros [_ Hhi]. split; [apply int_nonnegative; lra |].
        apply (int_between x (-1) 255). lra.
      * split; [intros H; lra |].
        intros H. apply int_negative. lra.
    + split; [split |].
      * intros _. lra.
      * intros _. lia.
      * split; intros H; lra.
Qed.

(** ** The rotation as a group action *)

Lemma rotate_vertex_add (v : vertex) (a b : R) :
  _rotate_vertex (_rotate_vertex v a) b = _rotate_vertex v (a + b).
Proof.
  destruct v as [[x y] z]. unfold _rotate_vertex.
  rewrite cos_plus, sin_plus. f_equal; [f_equal |]; ring.
Qed.

Lemma rotate_vertex_period (v : vertex) (a : R) :
  _rotate_vertex v (a + 2 * PI) = _rotate_vertex v a.
Proof.
  destruct v as [[x y] z]. unfold _rotate_vertex.
  rewrite cos_plus, sin_plus, cos_2PI, sin_2PI. f_equal; [f_equal |]; ring.
Qed.

(** X2.  Rotations compose by adding their angles, keep the distance to the
    vertical axis (x^2 + z^2), and have period 2 pi. *)
Theorem rotate_vertex_group (v : vertex) (a b : R) :
  _rotate_vertex (_rotate_vertex v a) b = _rotate_vertex v (a + b) /\
  _rotate_vertex (_rotate_vertex v a) b = _rotate_vertex (_rotate_vertex v b) a /\
  (let '(x, _, z) := v in
   let '(x', _, z') := _rotate_vertex v a in
   x' * x' + z' * z' = x * x + z * z) /\
  _rotate_vertex v (a + 2 * PI) = _rotate_vertex v a.
Proof.
  split; [apply rotate_vertex_add |].
  split; [rewrite !rotate_vertex_add; f_equal; ring |].
  split; [| apply rotate_vertex_period].
  destruct v as [[x y] z]. unfold _rotate_vertex.
  pose proof (sin_cos_square a) as H.
  replace ((x * cos a - z * sin a) * (x * cos a - z * sin a) +
           (x * sin a + z * cos a) * (x * sin a + z * cos a))
    with ((x * x + z * z) * (sin a * sin a + cos a * cos a)) by ring.
  rewrite H. ring.
Qed.

Lemma project_all_period (l : list vertex) (a : R) (w h : Z) :
  project_all l (a + 2 * PI) w h = project_all l a w h.
Proof.
  induction l as [| v l IH]; simpl; [reflexivity |].
  now rewrite rotate_vertex_period, IH.
Qed.

Lemma rotate_vertex_radius (v : vertex) (a : R) :
  vertex_x (_rotate_vertex v a) * vertex_x (_rotate_vertex v a)
  + vertex_z (_rotate_vertex v a) * vertex_z (_rotate_vertex v a)
  = vertex_x v * vertex_x v + vertex_z v * vertex_z v.
Proof.
  destruct v as [[x y] z]. unfold _rotate_vertex, vertex_x, vertex_z. simpl.
  pose proof (sin_cos_square a) as H.
  replace ((x * cos a - z * sin a) * (x * cos a - z * sin a) +
           (x * sin a + z * cos a) * (x * sin a + z * cos a))
    with ((x * x + z * z) * (sin a * sin a + cos a * cos a)) by ring.
  rewrite H. ring.
Qed.

(** A vertex off the vertical axis is moved by every rotation of less than
    a full turn. *)
Lemma rotate_vertex_moves (v : vertex) (theta : R) :
  0 < theta < 2 * PI ->
  0 < vertex_x v * vertex_x v + vertex_z v * vertex_z v ->
  _rotate_vertex v theta <> v.
Proof.
  destruct v as [[x y] z]. unfold vertex_x, vertex_z. simpl.
  intros Ht Hv Heq. unfold _rotate_vertex in Heq.
  injection Heq as Hx Hz.
  assert (Hc : cos theta < 1).
  { replace theta with (2 * (theta / 2)) by lra. rewrite cos_2a_sin.
    assert (Hs : 0 < sin (theta / 2)) by (apply sin_gt_0; lra).
    nra. }
  assert (Hk : (x * x + z * z) * cos theta = x * x + z * z).
  { replace ((x * x + z * z) * cos theta)
      with (x * (x * cos theta - z * sin theta)
            + z * (x * sin theta + z * cos theta)) by ring.
    rewrite Hx, Hz. ring. }
  nra.
Qed.

(** X3.  Over the reals, the animation turns the letter exactly twice.
    With the angle of line 191, progress * pi * 4, a vertex rotated for the
    frame at [elapsed + 1500] milliseconds is the vertex rotated for the
    frame at [elapsed] milliseconds; at 0 milliseconds the letter is not
    rotated; the angle at 3000 milliseconds is two full turns; and a
    vertex off the vertical axis is never at the same place in two frames
    less than 1500 milliseconds apart. *)
Theorem frames_repeat_after_half (v : vertex) (elapsed d : Z)
    (Hd : (0 < d < 1500)%Z)
    (Hv : vertex_x v <> 0 \/ vertex_z v <> 0) :
  _rotate_vertex v (IZR (elapsed + 1500) / IZR TOTAL_DURATION_MS * PI * 4)
  = _rotate_vertex v (IZR elapsed / IZR TOTAL_DURATION_MS * PI * 4) /\
  _rotate_vertex v (IZR 0 / IZR TOTAL_DURATION_MS * PI * 4) = v /\
  IZR TOTAL_DURATION_MS / IZR TOTAL_DURATION_MS * PI * 4 = 2 * (2 * PI) /\
  _rotate_vertex v (IZR (elapsed + d) / IZR TOTAL_DURATION_MS * PI * 4)
  <> _rotate_vertex v (IZR elapsed / IZR TOTAL_DURATION_MS * PI * 4).
Proof.
  split; [| split; [| split]].
  - replace (IZR (elapsed + 1500) / IZR TOTAL_DURATION_MS * PI * 4)
      with (IZR elapsed / IZR TOTAL_DURATION_MS * PI * 4 + 2 * PI).
    + apply rotate_vertex_period.
    + rewrite plus_IZR. unfold TOTAL_DURATION_MS. lra.
  - destruct v as [[x y] z].
    replace (IZR 0 / IZR TOTAL_DURATION_MS * PI * 4) with 0
      by (unfold TOTAL_DURATION_MS; lra).
    unfold _rotate_vertex. rewrite cos_0, sin_0. f_equal; [f_equal |]; ring.
  - unfold TOTAL_DURATION_MS. lra.
  - set (a := IZR elapsed / IZR TOTAL_DURATION_MS * PI * 4).
    set (t := IZR d / IZR TOTAL_DURATION_MS * PI * 4).
    replace (IZR (elapsed + d) / IZR TOTAL_DURATION_MS * PI * 4)
      with (a + t)
      by (unfold a, t; rewrite plus_IZR; unfold TOTAL_DURATION_MS; lra).
    rewrite <- rotate_vertex_add.
    assert (H0 : 0 < IZR d) by (apply IZR_lt; lia).
    assert (H1 : IZR d < 1500) by (apply IZR_lt; lia).
    pose proof PI_RGT_0 as Hpi.
    apply rotate_vertex_moves.
    + unfold t, TOTAL_DURATION_MS. split; nra.
    + rewrite rotate_vertex_radius.
      destruct Hv as [Hx | Hz]; nra.
Qed.

Lemma frames_repeat_after_half_witness :
  (0 < 750 < 1500)%Z /\
  _rotate_vertex (90, 120, -15)
    (IZR (0 + 750) / IZR TOTAL_DURATION_MS * PI * 4)
  <> _rotate_vertex (90, 120, -15) (IZR 0 / IZR TOTAL_DURATION_MS * PI * 4).
Proof.
  assert (Hd : (0 < 750 < 1500)%Z) by lia.
  split; [exact Hd |].
  assert (Hv : vertex_x (90, 120, -15) <> 0 \/ vertex_z (90, 120, -15) <> 0).
  { left. unfold vertex_x. simpl. lra. }
  exact (proj2 (proj2 (proj2
           (frames_repeat_after_half (90, 120, -15) 0 750 Hd Hv)))).
Defined.

(** ** The projector: when it raises, what it keeps *)

(** X4.  For finite inputs the projector raises [ZeroDivisionError]
    exactly when distance + z is zero; whenever it returns, the depth it
    returns is the z it was given; a vertex in the plane z = 0 is projected
    to the same point for every distance other than zero; and in front of
    the viewer (distance and distance + z positive, x and y of magnitude at
    most a million, width and height from 0 to 2^53) it returns, and a
    vertex right of the axis never lands left of width div 2, one left of
    it never right, one above it never below height div 2 and one below it
    never above: the y axis is inverted. *)
Theorem project_raises_iff (x y z : R) (w h : Z) (D D' : R) :
  (_project_3d_to_2d (x, y, z) w h D = Py.Raise Py.ZeroDivisionError
   <-> D + z = 0) /\
  (forall p, _project_3d_to_2d (x, y, z) w h D = Py.Ok p -> snd p = z) /\
  (D <> 0 -> D' <> 0 ->
   _project_3d_to_2d (x, y, 0) w h D = _project_3d_to_2d (x, y, 0) w h D') /\
  (0 < D -> 0 < D + z -> Rabs x <= 1000000 -> Rabs y <= 1000000 ->
   (0 <= w <= 2 ^ 53)%Z -> (0 <= h <= 2 ^ 53)%Z ->
   exists sx sy,
     _project_3d_to_2d (x, y, z) w h D = Py.Ok (sx, sy, z) /\
     (0 <= x -> (w / 2 <= sx)%Z) /\ (x <= 0 -> (sx <= w / 2)%Z) /\
     (0 <= y -> (sy <= h / 2)%Z) /\ (y <= 0 -> (h / 2 <= sy)%Z)).
Proof.
  split; [| split; [| split]].
  - unfold _project_3d_to_2d.
    destruct (Req_dec_T (D + z) 0) as [E0 | N0].
    + split; [intros _; exact E0 | reflexivity].
    + split; [intros H; discriminate H | intros H; contradiction].
  - intros p. unfold _project_3d_to_2d.
    destruct (Req_dec_T (D + z) 0); [discriminate |].
    intros [= <-]. reflexivity.
  - intros HD HD'. unfold _project_3d_to_2d.
    destruct (Req_dec_T (D + 0) 0) as [E0 | _]; [exfalso; lra |].
    destruct (Req_dec_T (D' + 0) 0) as [E0 | _]; [exfalso; lra |].
    replace (D / (D + 0)) with 1 by (field; lra).
    replace (D' / (D' + 0)) with 1 by (field; lra).
    reflexivity.
  - intros HD Hz _ _ Hw Hh. unfold _project_3d_to_2d.
    destruct (Req_dec_T (D + z) 0) as [E0 | _]; [exfalso; lra |].
    assert (Hs : 0 < D / (D + z)).
    { apply Rdiv_lt_0_compat; assumption. }
    do 2 eexists. split; [reflexivity |].
    rewrite <- (int_half w), <- (int_half h) by lia.
    repeat split; intros Hsign; apply int_monotone; nra.
Qed.

Lemma project_raises_iff_witness :
  exists sx sy,
    _project_3d_to_2d (90, 120, -15) 1920 1080 500 = Py.Ok (sx, sy, -15) /\
    (0 <= 90 -> (1920 / 2 <= sx)%Z) /\ (90 <= 0 -> (sx <= 1920 / 2)%Z) /\
    (0 <= 120 -> (sy <= 1080 / 2)%Z) /\ (120 <= 0 -> (1080 / 2 <= sy)%Z).
Proof.
  apply (proj2 (proj2 (proj2
           (project_raises_iff 90 120 (-15) 1920 1080 500 500)))).
  - lra.
  - lra.
  - rewrite Rabs_pos_eq; lra.
  - rewrite Rabs_pos_eq; lra.
  - lia.
  - lia.
Defined.

(** ** Shape of the letter *)

Lemma vertex_eq (x y z x' y' z' : R) :
  x = x' -> y = y' -> z = z' -> (x, y, z) = (x', y', z').
Proof. now intros -> -> ->. Qed.

Ltac find_vertex :=
  first [ left; apply vertex_eq; lra | right; find_vertex ].

(** X5.  For a non-negative size every vertex lies in the box
    |x| <= 0.6 size, |y| <= 0.8 size, |z| <= 0.1 size, and the vertex set is
    its own mirror image in x and in z. *)
Theorem letter_t_box (size : R) (v : vertex) (Hsize : 0 <= size)
    (Hv : In v (_create_3d_letter_t size)) :
  let '(x, y, z) := v in
  (- (0.6 * size) <= x <= 0.6 * size) /\
  (- (0.8 * size) <= y <= 0.8 * size) /\
  (- (0.1 * size) <= z <= 0.1 * size) /\
  In (- x, y, z) (_create_3d_letter_t size) /\
  In (x, y, - z) (_create_3d_letter_t size).
Proof.
  unfold _create_3d_letter_t in *. cbv zeta in *.
  simpl in Hv.
  repeat (destruct Hv as [<- | Hv];
          [split; [lra |]; split; [lra |]; split; [lra |];
           split; simpl; find_vertex |]).
  contradiction.
Qed.

Lemma letter_t_box_witness :
  0 <= 150 /\
  In (nth 10 (_create_3d_letter_t 150) (0, 0, 0)) (_create_3d_letter_t 150) /\
  let '(x, y, z) := nth 10 (_create_3d_letter_t 150) (0, 0, 0) in
  (- (0.6 * 150) <= x <= 0.6 * 150) /\
  (- (0.8 * 150) <= y <= 0.8 * 150) /\
  (- (0.1 * 150) <= z <= 0.1 * 150) /\
  In (- x, y, z) (_create_3d_letter_t 150) /\
  In (x, y, - z) (_create_3d_letter_t 150).
Proof.
  assert (H0 : 0 <= 150) by lra.
  assert (H1 : In (nth 10 (_create_3d_letter_t 150) (0, 0, 0))
                  (_create_3d_letter_t 150))
    by (simpl; do 10 right; left; reflexivity).
  split; [exact H0 |]. split; [exact H1 |].
  exact (letter_t_box 150 _ H0 H1).
Defined.

Ltac same_coordinate :=
  first
    [ exists vertex_x; split; [left; reflexivity | repeat constructor; reflexivity]
    | exists vertex_y; split; [right; left; reflexivity | repeat constructor; reflexivity]
    | exists vertex_z; split; [right; right; reflexivity | repeat constructor; reflexivity] ].

(** X6.  Every face of the table is a flat, axis-aligned quadrilateral: for
    every size its four vertices agree in x, or in y, or in z. *)
Theorem faces_are_planar (size : R) (f : face) (Hf : In f faces) :
  exists coordinate : vertex -> R,
    (coordinate = vertex_x \/ coordinate = vertex_y \/ coordinate = vertex_z) /\
    Forall (fun v => coordinate v
                     = coordinate (hd (0, 0, 0) (face_vertices size f)))
      (face_vertices size f).
Proof.
  unfold faces in Hf. simpl in Hf.
  repeat (destruct Hf as [<- | Hf];
          [unfold face_vertices, _create_3d_letter_t, vertex_x, vertex_y,
             vertex_z; cbv zeta; simpl; same_coordinate |]).
  contradiction.
Qed.

Lemma faces_are_planar_witness :
  In [1; 2; 6; 5]%Z faces /\
  exists coordinate : vertex -> R,
    (coordinate = vertex_x \/ coordinate = vertex_y \/ coordinate = vertex_z) /\
    Forall (fun v => coordinate v
                     = coordinate (hd (0, 0, 0)
                                     (face_vertices 150 [1; 2; 6; 5]%Z)))
      (face_vertices 150 [1; 2; 6; 5]%Z).
Proof.
  assert (H : In [1; 2; 6; 5]%Z faces) by (simpl; do 3 right; left; reflexivity).
  split; [exact H |].
  exact (faces_are_planar 150 _ H).
Defined.

(** ** The gradient as a function of depth *)

Lemma color_progress_monotone (a1 a2 : R) :
  a1 <= a2 -> color_progress a1 <= color_progress a2.
Proof.
  intros H. rewrite !clamp_color_progress. unfold clamp01.
  repeat (destruct (Rlt_dec _ _)); lra.
Qed.

Lemma gradient_monotone (cp1 cp2 : R) :
  cp1 <= cp2 ->
  let '(r1, g1, b1) := gradient cp1 in
  let '(r2, g2, b2) := gradient cp2 in
  (r1 <= r2)%Z /\ (g2 <= g1)%Z /\ (b2 <= b1)%Z.
Proof.
  intros H. unfold gradient.
  destruct (Rlt_dec cp1 0.5), (Rlt_dec cp2 0.5);
    (split; [| split]); apply int_monotone; lra.
Qed.

(** X7.  A face that is farther away (larger average depth) is never less
    red, never more green and never more blue than a nearer one. *)
Theorem fill_color_monotone_in_depth (a1 a2 : R) (Hdepth : a1 <= a2) :
  let '(r1, g1, b1) := gradient (color_progress a1) in
  let '(r2, g2, b2) := gradient (color_progress a2) in
  (r1 <= r2)%Z /\ (g2 <= g1)%Z /\ (b2 <= b1)%Z.
Proof.
  apply gradient_monotone. now apply color_progress_monotone.
Qed.

Lemma fill_color_monotone_in_depth_witness :
  -15 <= 15 /\
  let '(r1, g1, b1) := gradient (color_progress (-15)) in
  let '(r2, g2, b2) := gradient (color_progress 15) in
  (r1 <= r2)%Z /\ (g2 <= g1)%Z /\ (b2 <= b1)%Z.
Proof.
  assert (H : -15 <= 15) by lra.
  split; [exact H | exact (fill_color_monotone_in_depth (-15) 15 H)].
Defined.

(** X8.  The gradient saturates: an average depth of -150 or less gives
    cyan (0, 255, 255), one of 150 or more gives (255, 0, 150), and depth 0
    gives the middle tone (100, 100, 255). *)
Theorem gradient_saturates (a : R) :
  (a <= -150 -> gradient (color_progress a) = (0, 255, 255)%Z) /\
  (150 <= a -> gradient (color_progress a) = (255, 0, 150)%Z) /\
  gradient (color_progress 0) = (100, 100, 255)%Z.
Proof.
  assert (Hint : forall x z, x = IZR z -> (0 <= z)%Z -> Py.int x = z)
    by (intros x z -> Hz; now apply int_IZR_nonneg).
  split; [| split].
  - intros Ha.
    assert (E : color_progress a = 0).
    { rewrite clamp_color_progress. unfold clamp01.
      repeat (destruct (Rlt_dec _ _)); lra. }
    rewrite E. unfold gradient.
    destruct (Rlt_dec 0 0.5); [| lra].
    f_equal; [f_equal |]; apply Hint; (lra || lia).
  - intros Ha.
    assert (E : color_progress a = 1).
    { rewrite clamp_color_progress. unfold clamp01.
      repeat (destruct (Rlt_dec _ _)); lra. }
    rewrite E. unfold gradient.
    destruct (Rlt_dec 1 0.5); [lra |].
    f_equal; [f_equal |]; apply Hint; (lra || lia).
  - assert (E : color_progress 0 = 0.5).
    { rewrite clamp_color_progress. unfold clamp01.
      repeat (destruct (Rlt_dec _ _)); lra. }
    rewrite E. unfold gradient.
    destruct (Rlt_dec 0.5 0.5); [lra |].
    f_equal; [f_equal |]; apply Hint; (lra || lia).
Qed.

(** ** The letter on the screen *)






(** ** The clamp of the colour progress in the animation *)

Lemma project_all_depths (l : list vertex) (theta : R) (w h : Z)
    (ps : list projected) :
  project_all l theta w h = Py.Ok ps ->
  map depth_of ps = map (fun v => snd (_rotate_vertex v theta)) l.
Proof.
  revert ps. induction l as [| v l IH]; intros ps; simpl.
  - intros [= <-]. reflexivity.
  - destruct (_project_3d_to_2d _ _ _ _) as [p | e] eqn:Ep; [| discriminate].
    destruct (project_all l theta w h) as [ps' | e]; [| discriminate].
    intros [= <-]. simpl. f_equal; [| now apply IH].
    unfold _project_3d_to_2d in Ep.
    destruct (_rotate_vertex v theta) as [[x' y'] z'].
    destruct (Req_dec_T _ _); [discriminate |].
    injection Ep as <-. reflexivity.
Qed.

Lemma letter_depths_bounded (theta : R) (w h : Z) (ps : list projected) :
  project_all (_create_3d_letter_t 150) theta w h = Py.Ok ps ->
  Forall (fun p => -92 < depth_of p < 92) ps.
Proof.
  intros Hps. apply project_all_depths in Hps.
  assert (H : Forall (fun z => -92 < z < 92) (map depth_of ps)).
  { rewrite Hps. rewrite Forall_map. rewrite Forall_forall.
    intros v Hv. destruct (rotated_letter_depth v theta Hv) as (_ & Habs & _).
    unfold Rabs in Habs. destruct (Rcase_abs _); lra. }
  now rewrite Forall_map in H.
Qed.

Lemma avg_z_bounded (zs : list R) (lo hi : R) :
  List.length zs = 4%nat -> Forall (fun z => lo < z < hi) zs ->
  lo < avg_z zs < hi.
Proof.
  intros Hl Hall.
  destruct zs as [| a [| b [| c [| d [| ? ?]]]]]; try discriminate.
  rewrite avg_z_four.
  repeat match goal with
         | H : Forall _ (_ :: _) |- _ => inversion H; subst; clear H
         end.
  lra.
Qed.

(** X10.  In the animation the clamp never acts: for every face of the
    table and every angle, the face gathers four points, its average depth
    lies strictly between -92 and 92, and its colour progress is
    (avg_z + 150) / 300 itself, strictly between 0.19 and 0.81. *)
Theorem clamp_never_acts (f : face) (theta : R) (w h : Z)
    (Hf : In f faces) :
  exists ps points zs,
    project_all (_create_3d_letter_t 150) theta w h = Py.Ok ps /\
    gather ps f [] [] = Py.Ok (points, zs) /\
    List.length points = 4%nat /\
    -92 < avg_z zs < 92 /\
    color_progress (avg_z zs) = (avg_z zs + 150) / 300 /\
    0.19 < color_progress (avg_z zs) < 0.81.
Proof.
  destruct (project_all_letter_t theta w h) as (ps & Eps & Hl).
  pose proof (letter_depths_bounded theta w h ps Eps) as Hdepth.
  destruct faces_shape as [_ Hall]. rewrite Forall_forall in Hall.
  destruct (Hall f Hf) as [Hlen Hi]. rewrite Forall_forall in Hi.
  pose proof (gather_guarded ps f [] []) as Hg. simpl in Hg.
  rewrite Hl in Hg.
  rewrite guarded_all in Hg by (intros i Hin; specialize (Hi i Hin); lia).
  specialize (Hg ltac:(intros i Hin; specialize (Hi i Hin); lia)).
  exists ps. eexists. eexists.
  split; [exact Eps |]. split; [exact Hg |].
  split; [now rewrite length_map |].
  assert (Hzs : -92 < avg_z
                  (map (fun i => depth_of
                          (nth (py_position (Z.of_nat 16) i) ps (0%Z, 0%Z, 0)))
                     f) < 92).
  { apply avg_z_bounded; [now rewrite length_map |].
    rewrite Forall_map, Forall_forall. intros i Hin.
    rewrite Forall_forall in Hdepth. apply Hdepth.
    apply nth_In. specialize (Hi i Hin). unfold py_position.
    destruct (Z.ltb_spec i 0); lia. }
  split; [exact Hzs |].
  rewrite clamp_color_progress. unfold clamp01.
  repeat (destruct (Rlt_dec _ _)); lra.
Qed.

Lemma clamp_never_acts_witness :
  In [0; 1; 2; 3]%Z faces /\
  exists ps points zs,
    project_all (_create_3d_letter_t 150) 1 1920 1080 = Py.Ok ps /\
    gather ps [0; 1; 2; 3]%Z [] [] = Py.Ok (points, zs) /\
    List.length points = 4%nat /\
    -92 < avg_z zs < 92 /\
    color_progress (avg_z zs) = (avg_z zs + 150) / 300 /\
    0.19 < color_progress (avg_z zs) < 0.81.
Proof.
  assert (H : In [0; 1; 2; 3]%Z faces) by (left; reflexivity).
  split; [exact H |].
  exact (clamp_never_acts _ 1 1920 1080 H).
Defined.

(** ** The capability probe *)

(** X11.  [_can_show_splash]: on Linux with [DISPLAY] unset or empty it
    returns false after one debug log, calling nothing else.  Otherwise it
    makes the calls import, init, quit up to the first that raises: if none
    raises it returns true; if one raises an [Exception] it logs it and
    returns false, without making the calls after it; any other exception
    leaves the probe. *)
Theorem can_show_splash_spec (env : environment) (tr : trace) :
  (sys_platform_linux env = true -> truthy (environ_DISPLAY env) = false ->
   _can_show_splash env tr
   = (Done false,
      tr ++ [(logger_debug "DISPLAY is not set, skipping splash" None, None)]))
  /\
  (sys_platform_linux env = false \/ truthy (environ_DISPLAY env) = true ->
   exists k,
     (k <= 3)%nat /\
     (forall i, (i < k)%nat ->
        raises env (List.length tr + i) (nth i probe_calls pygame_quit) = None) /\
     (k = 3%nat ->
        _can_show_splash env tr = (Done true, tr ++ returned_calls probe_calls)) /\
     ((k < 3)%nat ->
        exists e,
          raises env (List.length tr + k) (nth k probe_calls pygame_quit)
          = Some e /\
          _can_show_splash env tr
          = (if Py.is_Exception e then Done false else Raised e,
             tr ++ returned_calls (firstn k probe_calls)
                ++ (nth k probe_calls pygame_quit, Some e)
                :: (if Py.is_Exception e
                    then [(logger_debug "Pygame is not available" (Some e),
                           None)]
                    else [])))).
Proof.
  split.
  { intros Hl Hd. unfold _can_show_splash. rewrite Hl, Hd. reflexivity. }
  intros Hcase.
  assert (Eq : _can_show_splash env tr
               = try_except
                   (call_ env (import_module "pygame") ;;;
                    call_ env pygame_init ;;;
                    call_ env pygame_quit ;;;
                    ret true)
                   Py.is_Exception
                   (fun e =>
                      log (logger_debug "Pygame is not available" (Some e)) ;;;
                      ret false) tr).
  { unfold _can_show_splash.
    destruct (sys_platform_linux env); [| reflexivity].
    destruct Hcase as [H | H]; [discriminate | now rewrite H]. }
  rewrite Eq. clear Eq.
  unfold try_except, bind, call_, extcall, log, ret.
  destruct (raises env (List.length tr) (import_module "pygame"))
    as [e0 |] eqn:E0.
  { exists 0%nat. split; [lia |]. split; [intros i Hi; lia |].
    split; [discriminate |]. intros _. exists e0.
    rewrite Nat.add_0_r. split; [exact E0 |].
    destruct (Py.is_Exception e0); simpl; rewrite <- ?app_assoc; reflexivity. }
  rewrite length_app. simpl List.length.
  destruct (raises env (List.length tr + 1) pygame_init) as [e1 |] eqn:E1.
  { exists 1%nat. split; [lia |]. split.
    { intros i Hi. assert (i = 0%nat) by lia. subst i.
      now rewrite Nat.add_0_r. }
    split; [discriminate |]. intros _. exists e1.
    split; [exact E1 |].
    destruct (Py.is_Exception e1); simpl; rewrite <- ?app_assoc; reflexivity. }
  rewrite !length_app. simpl List.length.
  replace (List.length tr + 1 + 1)%nat with (List.length tr + 2)%nat by lia.
  destruct (raises env (List.length tr + 2) pygame_quit) as [e2 |] eqn:E2.
  { exists 2%nat. split; [lia |]. split.
    { intros i Hi. destruct i as [| [| i]];
        [now rewrite Nat.add_0_r | exact E1 | lia]. }
    split; [discriminate |]. intros _. exists e2.
    split; [exact E2 |].
    destruct (Py.is_Exception e2); simpl; rewrite <- ?app_assoc; reflexivity. }
  exists 3%nat. split; [lia |]. split.
  { intros i Hi. destruct i as [| [| [| i]]];
      [now rewrite Nat.add_0_r | exact E1 | exact E2 | lia]. }
  split; [| lia].
  intros _. simpl. rewrite <- !app_assoc. reflexivity.
Qed.

(** ** Teardown *)

Lemma quits_last_bind {A B : Type} (m : M A) (f : A -> M B) :
  (forall a, quits_last (f a)) -> quits_last (bind m f).
Proof.
  intros H tr r tr'. unfold bind.
  destruct (m tr) as [[a | e |] tr1]; try discriminate. apply H.
Qed.

Lemma animation_quits_last (env : environment) (fs : list face) (fuel : nat) :
  quits_last (animation env fs fuel).
Proof.
  unfold animation.
  apply quits_last_bind; intros _.
  apply quits_last_bind; intros [sw sh].
  do 7 (apply quits_last_bind; intros _).
  intros tr r tr'. unfold bind, call_, extcall, ret.
  destruct (raises env _ _); [discriminate |].
  intros [= _ <-]. now exists tr.
Qed.

(** X12.  Once the probe and the imports have succeeded, every run of
    [show_splash] that returns, true or false, has [pygame.quit()] as its
    last call. *)
Theorem show_splash_quits_last (env : environment) (fuel : nat) (b : bool)
    (Hprobe : fst (_can_show_splash env []) = Done true)
    (Himports :
       fst (import_modules env (snd (_can_show_splash env []))) = Done true)
    (Hreturns : fst (show_splash env fuel []) = Done b) :
  exists init o,
    snd (show_splash env fuel []) = init ++ [(pygame_quit, o)].
Proof.
  unfold show_splash, show_splash_with in *.
  unfold bind at 1 in Hreturns. unfold bind at 1.
  destruct (_can_show_splash env []) as [r1 t1]. simpl in Hprobe, Himports.
  subst r1. cbn [negb] in *.
  unfold bind at 1 in Hreturns. unfold bind at 1.
  destruct (import_modules env t1) as [r2 t2]. simpl in Himports.
  subst r2. cbn [negb] in *.
  unfold try_except in *.
  pose proof (animation_quits_last env faces fuel t2) as Hq.
  destruct (animation env faces fuel t2) as [[b' | e |] t3].
  - destruct (Hq b' t3 eq_refl) as [init Hinit].
    exists init, None. exact Hinit.
  - destruct (Py.is_Exception e).
    + destruct (on_error_run env e t3) as [o Ho]. rewrite Ho.
      exists (t3 ++ [(logger_warning "Error showing splash" (Some e), None)]), o.
      simpl. rewrite <- app_assoc. reflexivity.
    + discriminate Hreturns.
  - discriminate Hreturns.
Qed.

Lemma show_splash_quits_last_witness :
  exists init o,
    snd (show_splash display_error_env 1 []) = init ++ [(pygame_quit, o)].
Proof.
  apply (show_splash_quits_last display_error_env 1 false);
    reflexivity.
Defined.

(** ** A run that is shown *)

Lemma probe_returns_with_display (env : environment) :
  (forall k c, raises env k c = None) ->
  sys_platform_linux env = false \/ truthy (environ_DISPLAY env) = true ->
  _can_show_splash env [] = (Done true, probe_trace).
Proof.
  intros Hquiet Hdisplay. unfold _can_show_splash.
  assert (Hp : try_except
                 (call_ env (import_module "pygame") ;;;
                  call_ env pygame_init ;;;
                  call_ env pygame_quit ;;;
                  ret true)
                 Py.is_Exception
                 (fun e =>
                    log (logger_debug "Pygame is not available" (Some e)) ;;;
                    ret false) []
               = (Done true, probe_trace)).
  { unfold try_except, call_.
    repeat (erewrite bind_done by (apply extcall_returns; exact Hquiet)).
    reflexivity. }
  destruct (sys_platform_linux env); [| exact Hp].
  destruct Hdisplay as [H | H]; [discriminate |]. rewrite H. exact Hp.
Qed.

(** X13.  When no call raises, a display is available (not Linux, or
    [DISPLAY] non-empty) and the clock advances by the whole duration within
    the iterations of the loop, [show_splash] returns true, every call
    having returned, the last of them [pygame.quit()]. *)
Theorem show_splash_shown (env : environment) (N fuel : nat)
    (Hquiet : forall k c, raises env k c = None)
    (Hdisplay : sys_platform_linux env = false \/
                truthy (environ_DISPLAY env) = true)
    (Hclock : clock_advances env N) (HN : (N <= fuel)%nat) :
  exists init,
    show_splash env fuel [] = (Done true, init ++ [(pygame_quit, None)]) /\
    Forall (fun en => snd en = None) init.
Proof.
  unfold show_splash, show_splash_with.
  rewrite (bind_done _ _ _ _ _ (probe_returns_with_display env Hquiet Hdisplay)).
  cbn [negb].
  rewrite (bind_done _ _ _ _ _ (imports_return env Hquiet)). cbn [negb].
  unfold try_except.
  destruct (animation_returned env Hquiet fuel imported_trace)
    as (new & Enew & Hpost).
  pose proof (animation_returns_true env faces fuel imported_trace) as Hret.
  pose proof (animation_quits_last env faces fuel imported_trace) as Hq.
  assert (Hfin : fst (animation env faces fuel imported_trace) <> Unfinished).
  { unfold animation, call_.
    apply finishes_bind; [apply finishes_extcall | intros _].
    apply finishes_bind; [apply finishes_extcall | intros [sw sh]].
    do 6 (apply finishes_bind; [apply finishes_extcall | intros _]).
    apply finishes_bind;
      [now apply (main_loop_finishes env _ _ _ _ N) | intros _].
    apply finishes_bind; [apply finishes_extcall | intros _].
    apply finishes_ret. }
  destruct (animation env faces fuel imported_trace) as [[b | e |] tr'];
    cbn [fst snd] in Enew, Hpost, Hfin.
  - rewrite (Hret b _ eq_refl).
    destruct (Hq b tr' eq_refl) as [init Hinit].
    exists init. split; [now rewrite Hinit |].
    assert (Hall : Forall (fun en : entry => snd en = None) tr').
    { rewrite Enew. apply Forall_app. split; [repeat constructor | exact Hpost]. }
    rewrite Hinit in Hall. apply Forall_app in Hall. tauto.
  - destruct Hpost as [[] _].
  - contradiction.
Qed.

Lemma show_splash_shown_witness :
  exists init,
    show_splash quiet_env 188 [] = (Done true, init ++ [(pygame_quit, None)]) /\
    Forall (fun en => snd en = None) init.
Proof.
  apply (show_splash_shown quiet_env 188 188).
  - intros k c. reflexivity.
  - left. reflexivity.
  - intros j k Hjk. unfold quiet_env, TOTAL_DURATION_MS. simpl. lia.
  - lia.
Defined.

(** ** Early exit *)

Lemma handle_events_existsb (evs : list event) (running : bool) :
  handle_events evs running = running && negb (existsb quit_requested evs).
Proof.
  unfold handle_events. revert running.
  induction evs as [| ev evs IH]; intros running; simpl.
  - now rewrite andb_true_r.
  - rewrite IH. destruct ev as [| [|] |]; simpl;
      destruct running; reflexivity.
Qed.

Lemma bind_ret_unit (m : M unit) (tr : trace) :
  bind m (fun _ => ret tt) tr = m tr.
Proof.
  unfold bind, ret. destruct (m tr) as [[[] | e |] tr']; reflexivity.
Qed.

(** X14.  When a poll returns a close request or an Escape key press, that
    iteration is the last of the loop, however much time is left.  The rest
    of the iteration still runs: the clock is read and, unless the duration
    is over, the whole frame is drawn (the surface cleared, the faces drawn,
    the surface blitted and flipped, the clock ticked); what the loop does
    from the poll on is that and nothing more, no event being polled
    again. *)
Theorem quit_event_ends_loop (env : environment) (fuel : nat)
    (fs : list face) (letter_t : list vertex) (w h : Z)
    (start_time : option Z) (tr : trace)
    (Hpoll : raises env (List.length tr) pygame_event_get = None)
    (Hquit : existsb quit_requested (event_queue env (List.length tr)) = true) :
  main_loop env (S fuel) fs letter_t w h start_time tr
  = (start_time <-
       match start_time with
       | None => extcall env pygame_time_get_ticks (ticks env)
       | Some t => ret t
       end ;;
     now <- extcall env pygame_time_get_ticks (ticks env) ;;
     let elapsed := (now - start_time)%Z in
     if (elapsed >=? TOTAL_DURATION_MS)%Z then ret tt
     else render_frame env fs letter_t w h elapsed)
      (tr ++ [(pygame_event_get, None)]) /\
  (forall t0,
     start_time = Some t0 ->
     raises env (S (List.length tr)) pygame_time_get_ticks = None ->
     (ticks env (S (List.length tr)) - t0 < TOTAL_DURATION_MS)%Z ->
     main_loop env (S fuel) fs letter_t w h start_time tr
     = render_frame env fs letter_t w h (ticks env (S (List.length tr)) - t0)
         (tr ++ [(pygame_event_get, None); (pygame_time_get_ticks, None)])) /\
  main_loop env (S fuel) fs letter_t w h start_time tr
  = main_loop env 1 fs letter_t w h start_time tr /\
  fst (main_loop env (S fuel) fs letter_t w h start_time tr) <> Unfinished /\
  (handle_events (event_queue env (List.length tr)) true = false).
Proof.
  assert (Hrun : handle_events (event_queue env (List.length tr)) true = false).
  { rewrite handle_events_existsb, Hquit. reflexivity. }
  assert (Heq : forall fuel',
            main_loop env (S fuel') fs letter_t w h start_time tr
            = (start_time <-
                 match start_time with
                 | None => extcall env pygame_time_get_ticks (ticks env)
                 | Some t => ret t
                 end ;;
               now <- extcall env pygame_time_get_ticks (ticks env) ;;
               let elapsed := (now - start_time)%Z in
               if (elapsed >=? TOTAL_DURATION_MS)%Z then ret tt
               else render_frame env fs letter_t w h elapsed)
                (tr ++ [(pygame_event_get, None)])).
  { intros fuel'. cbn [main_loop]. unfold bind at 1. unfold extcall at 1.
    rewrite Hpoll, Hrun.
    apply bind_ext. intros st tr1. apply bind_ext. intros now_ tr2.
    cbv zeta. destruct (_ >=? _)%Z; [reflexivity |].
    apply bind_ret_unit. }
  split; [apply Heq |].
  split.
  { intros t0 -> Htick Hearly. rewrite Heq.
    unfold bind at 1. unfold ret at 1.
    unfold bind at 1. unfold extcall at 1.
    rewrite length_app. simpl List.length.
    replace (List.length tr + 1)%nat with (S (List.length tr)) by lia.
    rewrite Htick. cbv zeta.
    destruct (Z.geb_spec (ticks env (S (List.length tr)) - t0)
                TOTAL_DURATION_MS) as [Hge | _]; [lia |].
    rewrite <- app_assoc. reflexivity. }
  split; [now rewrite !Heq |]. split; [| exact Hrun].
  rewrite Heq.
  apply finishes_bind.
  { destruct start_time; [apply finishes_ret | apply finishes_extcall]. }
  intros st.
  apply finishes_bind; [apply finishes_extcall | intros now_].
  cbv zeta. destruct (_ >=? _)%Z; [apply finishes_ret |].
  apply finishes_render_frame.
Qed.

Lemma quit_event_ends_loop_witness :
  main_loop closing_env 3 faces (_create_3d_letter_t 150) 1920 1080
    (Some 0%Z) []
  = render_frame closing_env faces (_create_3d_letter_t 150) 1920 1080
      (ticks closing_env 1 - 0)
      [(pygame_event_get, None); (pygame_time_get_ticks, None)].
Proof.
  apply (proj1 (proj2
           (quit_event_ends_loop closing_env 2 faces (_create_3d_letter_t 150)
              1920 1080 (Some 0%Z) [] eq_refl eq_refl)) 0%Z eq_refl eq_refl).
  reflexivity.
Defined.

(** ** The polygons of a frame *)

Lemma gather_face (pv : list projected) (f : face) :
  (forall i, In i f ->
     (- Z.of_nat (List.length pv) <= i < Z.of_nat (List.length pv))%Z) ->
  gather pv f [] [] = Py.Ok (face_points pv f, face_depths pv f).
Proof.
  intros Hi. pose proof (gather_guarded pv f [] []) as Hg. simpl in Hg.
  rewrite guarded_all in Hg by (intros i Hin; now apply Hi).
  apply Hg. intros i Hin. now apply Hi.
Qed.

Section Drawing.

Variable env : environment.

Hypothesis Hdraw : forall k color points width,
  raises env k (pygame_draw_polygon color points width) = None.

Lemma draw_face_entries (a : Z) (pv : list projected) (f : face)
    (tr : trace) :
  List.length f = 4%nat ->
  (forall i, In i f ->
     (- Z.of_nat (List.length pv) <= i < Z.of_nat (List.length pv))%Z) ->
  draw_face env a pv f tr = (Done tt, tr ++ face_entries a pv f).
Proof.
  intros Hlen Hi. unfold draw_face, bind at 1, lift.
  rewrite (gather_face pv f Hi).
  unfold face_points at 1. rewrite length_map, Hlen. simpl.
  unfold try_except, bind, call_, extcall.
  rewrite !Hdraw. unfold face_entries. rewrite <- app_assoc. reflexivity.
Qed.

Lemma draw_faces_entries (a : Z) (pv : list projected) (fs : list face)
    (tr : trace) :
  Forall (fun f =>
            List.length f = 4%nat /\
            forall i, In i f ->
              (- Z.of_nat (List.length pv) <= i < Z.of_nat (List.length pv))%Z)
    fs ->
  draw_faces env a pv fs tr
  = (Done tt, tr ++ flat_map (face_entries a pv) fs).
Proof.
  intros Hall. revert tr.
  induction Hall as [| f fs [Hlen Hi] _ IH]; intros tr; simpl.
  - now rewrite app_nil_r.
  - unfold bind. rewrite (draw_face_entries a pv f tr Hlen Hi).
    rewrite IH. rewrite <- app_assoc. reflexivity.
Qed.

End Drawing.

(** X15.  With sixteen projected vertices and no polygon call raising,
    every frame draws each of the twelve faces of the table, in the order of
    the table: a filled polygon and then its outline of width 2, twenty-four
    calls in all, and no face is skipped. *)
Theorem frame_draws_every_face (env : environment) (a : Z)
    (pv : list projected) (tr : trace)
    (Hdraw : forall k color points width,
       raises env k (pygame_draw_polygon color points width) = None)
    (Hpv : List.length pv = 16%nat) :
  draw_faces env a pv faces tr
  = (Done tt, tr ++ flat_map (face_entries a pv) faces) /\
  List.length (flat_map (face_entries a pv) faces) = 24%nat /\
  Forall (fun f => List.length (face_points pv f) = 4%nat) faces.
Proof.
  destruct faces_shape as [_ Hall].
  split; [| split].
  - apply draw_faces_entries; [exact Hdraw |].
    eapply Forall_impl; [| exact Hall].
    intros f [Hlen Hi]. split; [exact Hlen |].
    rewrite Forall_forall in Hi. intros i Hin. specialize (Hi i Hin).
    rewrite Hpv. lia.
  - reflexivity.
  - eapply Forall_impl; [| exact Hall].
    intros f [Hlen _]. unfold face_points. now rewrite length_map.
Qed.

Lemma frame_draws_every_face_witness :
  draw_faces quiet_env 255 flat_vertices faces []
  = (Done tt, [] ++ flat_map (face_entries 255 flat_vertices) faces) /\
  List.length (flat_map (face_entries 255 flat_vertices) faces) = 24%nat /\
  Forall (fun f => List.length (face_points flat_vertices f) = 4%nat) faces.
Proof.
  apply (frame_draws_every_face quiet_env 255 flat_vertices []).
  - intros k color points width. reflexivity.
  - reflexivity.
Defined.

(** ** A polygon that fails *)

(** X16.  When the fill of a face raises [ValueError] or [IndexError], the
    outline of that face is not attempted and the loop goes on with the next
    face; when it raises anything else, the face loop is left with that
    exception and no further face is drawn. *)
Theorem failed_fill_skips_outline (env : environment) (a : Z)
    (pv : list projected) (f : face) (rest : list face) (tr : trace)
    (e : Py.exn)
    (Hlen : List.length f = 4%nat)
    (Hrange : forall i, In i f ->
       (- Z.of_nat (List.length pv) <= i < Z.of_nat (List.length pv))%Z)
    (Hfill : raises env (List.length tr)
               (pygame_draw_polygon (fill_color (face_depths pv f) a)
                  (face_points pv f) 0) = Some e) :
  let failed :=
    (pygame_draw_polygon (fill_color (face_depths pv f) a)
       (face_points pv f) 0, Some e) in
  ((e = Py.ValueError \/ e = Py.IndexError) ->
   draw_faces env a pv (f :: rest) tr
   = draw_faces env a pv rest (tr ++ [failed])) /\
  (e <> Py.ValueError -> e <> Py.IndexError ->
   draw_faces env a pv (f :: rest) tr = (Raised e, tr ++ [failed])).
Proof.
  assert (Hface :
    draw_face env a pv f tr
    = (if (Py.exn_eqb e Py.ValueError || Py.exn_eqb e Py.IndexError)%bool
       then Done tt else Raised e,
       tr ++ [(pygame_draw_polygon (fill_color (face_depths pv f) a)
                 (face_points pv f) 0, Some e)])).
  { unfold draw_face, bind at 1, lift.
    rewrite (gather_face pv f Hrange).
    unfold face_points at 1. rewrite length_map, Hlen. simpl.
    unfold try_except, bind, call_, extcall. rewrite Hfill.
    destruct (_ || _)%bool; reflexivity. }
  simpl. unfold bind. rewrite Hface. split.
  - intros [-> | ->]; reflexivity.
  - intros H1 H2. destruct e; try reflexivity; contradiction.
Qed.

Lemma failed_fill_skips_outline_witness :
  let failed :=
    (pygame_draw_polygon (fill_color (face_depths flat_vertices [0; 1; 2; 3]%Z) 255)
       (face_points flat_vertices [0; 1; 2; 3]%Z) 0, Some Py.ValueError) in
  ((Py.ValueError = Py.ValueError \/ Py.ValueError = Py.IndexError) ->
   draw_faces bad_polygon_env 255 flat_vertices
     ([0; 1; 2; 3]%Z :: [[4; 5; 6; 7]%Z]) []
   = draw_faces bad_polygon_env 255 flat_vertices [[4; 5; 6; 7]%Z]
       ([] ++ [failed])) /\
  (Py.ValueError <> Py.ValueError -> Py.ValueError <> Py.IndexError ->
   draw_faces bad_polygon_env 255 flat_vertices
     ([0; 1; 2; 3]%Z :: [[4; 5; 6; 7]%Z]) []
   = (Raised Py.ValueError, [] ++ [failed])).
Proof.
  apply (failed_fill_skips_outline bad_polygon_env 255 flat_vertices
           [0; 1; 2; 3]%Z [[4; 5; 6; 7]%Z] [] Py.ValueError).
  - reflexivity.
  - simpl. intros i H.
    repeat (destruct H as [<- | H]; [lia |]). contradiction.
  - reflexivity.
Defined.

(** ** Colours over a whole run *)

Lemma keeps_colors_intro {A : Type} (m : M A) :
  (forall tr, exists new,
     snd (m tr) = tr ++ new /\ Forall entry_colors_ok new) ->
  keeps_colors m.
Proof.
  intros H tr. destruct (H tr) as (new & En & Hn). exists new.
  split; [exact En |].
  destruct (fst (m tr)); simpl; auto.
  split; [exact I |]. eapply Forall_impl; [| exact Hn]. auto.
Qed.

Lemma keeps_colors_elim {A : Type} (m : M A) (tr : trace) :
  keeps_colors m ->
  exists new, snd (m tr) = tr ++ new /\ Forall entry_colors_ok new.
Proof.
  intros H. destruct (H tr) as (new & En & Hn). exists new.
  split; [exact En |].
  destruct (fst (m tr)); simpl in Hn; auto.
  destruct Hn as [_ Hn]. eapply Forall_impl; [| exact Hn].
  intros en [Hen | []]. exact Hen.
Qed.

Lemma render_frame_keeps_colors (env : environment) (fs : list face)
    (letter_t : list vertex) (w h elapsed : Z) :
  (0 <= elapsed < TOTAL_DURATION_MS)%Z ->
  keeps_colors (render_frame env fs letter_t w h elapsed).
Proof.
  intros Hel.
  apply (ok_render_frame env entry_colors_ok (fun _ => True)
           (fun _ _ => False) channel_ok fs letter_t).
  - apply extcall_colors.
  - intros; exact I.
  - intros a pv f Ha _ _. now apply draw_face_colors.
  - apply alpha_range. unfold TOTAL_DURATION_MS in *.
    assert (H0 : 0 <= IZR elapsed) by (apply IZR_le; lia).
    assert (H1 : IZR elapsed < 3000) by (apply IZR_lt; lia).
    split; [apply Rmult_le_pos; lra | lra].
Qed.

Section RunColors.

Variable env : environment.

Hypothesis Hclock : clock_monotone env.

Lemma main_loop_colors (fs : list face) (letter_t : list vertex) (w h : Z)
    (fuel : nat) (start_time : option Z) (tr : trace) :
  match start_time with
  | Some st => exists j, (j < List.length tr)%nat /\ st = ticks env j
  | None => True
  end ->
  exists new,
    snd (main_loop env fuel fs letter_t w h start_time tr) = tr ++ new /\
    Forall entry_colors_ok new.
Proof.
  revert start_time tr.
  induction fuel as [| fuel IH]; intros start_time tr Hstart.
  { exists []. split; [simpl; now rewrite app_nil_r | constructor]. }
  cbn [main_loop]. unfold bind at 1. unfold extcall at 1.
  destruct (raises env (List.length tr) pygame_event_get) as [e |].
  { eexists. split; [reflexivity |]. repeat constructor. }
  set (t1 := tr ++ [(pygame_event_get, None)]).
  assert (Ht1 : List.length t1 = S (List.length tr))
    by (unfold t1; rewrite length_app; simpl; lia).
  (* the start time, read now or before *)
  assert (Hst :
    (exists st j pre,
       (match start_time with
        | Some t => ret t
        | None => extcall env pygame_time_get_ticks (ticks env)
        end) t1 = (Done st, t1 ++ pre) /\
       Forall entry_colors_ok pre /\
       (j < List.length (t1 ++ pre))%nat /\ st = ticks env j)
    \/
    (exists e0,
       (match start_time with
        | Some t => ret t
        | None => extcall env pygame_time_get_ticks (ticks env)
        end) t1 = (Raised e0, t1 ++ [(pygame_time_get_ticks, Some e0)]))).
  { destruct start_time as [st |].
    - destruct Hstart as (j & Hj & Est).
      left. exists st, j, []. unfold ret. rewrite app_nil_r.
      split; [reflexivity |]. split; [constructor |].
      split; [lia | exact Est].
    - unfold extcall.
      destruct (raises env (List.length t1) pygame_time_get_ticks) as [e0 |].
      + right. exists e0. reflexivity.
      + left. exists (ticks env (List.length t1)), (List.length t1),
          [(pygame_time_get_ticks, None)].
        split; [reflexivity |]. split; [repeat constructor |].
        split; [rewrite length_app; simpl; lia | reflexivity]. }
  unfold bind at 1.
  destruct Hst as [(st & j & pre & Erun & Hpre & Hj & Est) | (e0 & Erun)];
    rewrite Erun.
  2:{ exists [(pygame_event_get, None); (pygame_time_get_ticks, Some e0)].
      split; [unfold t1; simpl; now rewrite <- app_assoc |].
      repeat constructor. }
  set (t2 := t1 ++ pre) in *.
  assert (Et2 : t2 = t1 ++ pre) by reflexivity.
  unfold bind at 1. unfold extcall at 1.
  destruct (raises env (List.length t2) pygame_time_get_ticks) as [e1 |].
  { exists ((pygame_event_get, None) :: pre
            ++ [(pygame_time_get_ticks, Some e1)]).
    split.
    - simpl. rewrite Et2. unfold t1. rewrite <- !app_assoc. reflexivity.
    - constructor; [exact I |]. apply Forall_app. split; [exact Hpre |].
      repeat constructor. }
  set (t3 := t2 ++ [(pygame_time_get_ticks, None)]).
  assert (Hge : (0 <= ticks env (List.length t2) - st)%Z).
  { subst st. pose proof (Hclock j (List.length t2) ltac:(lia)). lia. }
  assert (Hpre3 : exists pre3, t3 = tr ++ pre3 /\ Forall entry_colors_ok pre3).
  { exists ((pygame_event_get, None) :: pre ++ [(pygame_time_get_ticks, None)]).
    split.
    - unfold t3. rewrite Et2. unfold t1. rewrite <- !app_assoc. reflexivity.
    - constructor; [exact I |]. apply Forall_app. split; [exact Hpre |].
      repeat constructor. }
  destruct Hpre3 as (pre3 & Et3 & Hpre3).
  destruct (Z.geb_spec (ticks env (List.length t2) - st) TOTAL_DURATION_MS)
    as [Hover | Hin].
  { exists pre3. split; [exact Et3 | exact Hpre3]. }
  unfold bind at 1.
  destruct (keeps_colors_elim
              (render_frame env fs letter_t w h
                 (ticks env (List.length t2) - st)) t3
              (render_frame_keeps_colors env fs letter_t w h _
                 (conj Hge Hin))) as (new4 & E4 & H4).
  destruct (render_frame env fs letter_t w h
              (ticks env (List.length t2) - st) t3) as [[u | e4 |] t4];
    simpl in E4.
  - destruct (handle_events _ true).
    + destruct (IH (Some st) t4) as (new5 & E5 & H5).
      { exists j. split; [| exact Est].
        rewrite E4. unfold t3. rewrite !length_app. simpl. lia. }
      exists (pre3 ++ new4 ++ new5). split.
      * rewrite E5, E4, Et3. now rewrite <- !app_assoc.
      * repeat (apply Forall_app; split); assumption.
    + exists (pre3 ++ new4). split.
      * unfold ret. simpl. rewrite E4, Et3. now rewrite <- app_assoc.
      * apply Forall_app; split; assumption.
  - exists (pre3 ++ new4). split.
    + simpl. rewrite E4, Et3. now rewrite <- app_assoc.
    + apply Forall_app; split; assumption.
  - exists (pre3 ++ new4). split.
    + simpl. rewrite E4, Et3. now rewrite <- app_assoc.
    + apply Forall_app; split; assumption.
Qed.

Lemma animation_keeps_colors (fs : list face) (fuel : nat) :
  keeps_colors (animation env fs fuel).
Proof.
  unfold keeps_colors, animation, call_.
  apply ok_bind; [now apply extcall_colors | intros _].
  apply ok_bind; [now apply extcall_colors | intros [sw sh]].
  do 6 (apply ok_bind; [now apply extcall_colors | intros _]).
  apply ok_bind.
  { apply keeps_colors_intro. intros tr.
    now apply main_loop_colors. }
  intros _.
  apply ok_bind; [now apply extcall_colors | intros _].
  apply ok_ret.
Qed.

Lemma show_splash_keeps_colors (fs : list face) (fuel : nat) :
  keeps_colors (show_splash_with env fs fuel).
Proof.
  assert (Htry : forall (A : Type) (body : M A) catches handler,
             keeps_colors body -> (forall e, keeps_colors (handler e)) ->
             keeps_colors (try_except body catches handler)).
  { intros A body catches handler Hb Hh.
    apply ok_try_except with (Eb := fun _ => True) (Prb := fun _ _ => False).
    - exact Hb.
    - intros e _ _. split; [tauto | apply Hh].
    - intros e _ _. split; [exact I | tauto]. }
  assert (Hprobe : keeps_colors
            (try_except
               (call_ env (import_module "pygame") ;;;
                call_ env pygame_init ;;;
                call_ env pygame_quit ;;;
                ret true)
               Py.is_Exception
               (fun e =>
                  log (logger_debug "Pygame is not available" (Some e)) ;;;
                  ret false))).
  { apply Htry.
    - unfold call_.
      do 3 (apply ok_bind; [now apply extcall_colors | intros _]).
      apply ok_ret.
    - intros e. apply ok_bind; [apply ok_log; exact I | intros _].
      apply ok_ret. }
  unfold keeps_colors, show_splash_with.
  apply ok_bind.
  { unfold _can_show_splash.
    destruct (sys_platform_linux env); [| exact Hprobe].
    destruct (negb _); [| exact Hprobe].
    apply ok_bind; [apply ok_log; exact I | intros _]. apply ok_ret. }
  intros can. destruct (negb can); [apply ok_ret |].
  apply ok_bind.
  { unfold import_modules. apply Htry.
    - unfold call_.
      do 2 (apply ok_bind; [now apply extcall_colors | intros _]).
      apply ok_ret.
    - intros e. apply ok_bind; [apply ok_log; exact I | intros _].
      apply ok_ret. }
  intros imported. destruct (negb imported); [apply ok_ret |].
  apply Htry; [apply animation_keeps_colors |].
  intros e. unfold on_error.
  apply ok_bind; [apply ok_log; exact I | intros _].
  apply ok_bind; [| intros _; apply ok_ret].
  apply Htry; [now apply extcall_colors | intros _; apply ok_ret].
Qed.

End RunColors.

(** X17.  With a clock that never goes back, every colour handed to
    [pygame.draw.polygon] in a whole run of [show_splash], whatever the
    calls do, has its four channels within [0, 255]. *)
Theorem run_colors_in_range (env : environment) (fuel : nat)
    (Hclock : clock_monotone env) :
  Forall entry_colors_ok (snd (show_splash env fuel [])).
Proof.
  destruct (keeps_colors_elim (show_splash env fuel) []
              (show_splash_keeps_colors env Hclock faces fuel))
    as (new & En & Hn).
  rewrite En. exact Hn.
Qed.

Lemma run_colors_in_range_witness :
  Forall entry_colors_ok (snd (show_splash quiet_env 188 [])).
Proof.
  apply (run_colors_in_range quiet_env 188).
  intros j k Hjk. unfold quiet_env. simpl. lia.
Defined.
